(** * ghe.ipynb: the daily rainfall aggregation of the GHE notebook

    A shallow embedding of [Code/ColabNotebooks/Data Retreival/ghe.ipynb]:
    the temporary files, the blob selection, the read-and-sum loop, the
    summary, the shape assertions, the downsampling by decimation and
    the values handed to the colour mesh.

    The run as a whole ([Ghe]) is modelled over exact cell values ([Z])
    none of which is masked: what it proves about shapes, errors, traces
    and order is independent of the values.  What one pass of the loop
    does to the values is modelled apart ([Ma]), on float64 arrays with
    masks as NumPy computes them. *)

From Stdlib Require Import String Ascii ZArith List Bool Arith Lia Permutation.
From Stdlib Require QArith.
From Stdlib Require Import PrimFloat.
Import ListNotations.

Local Open Scope Z_scope.

(** ** NumPy arrays, as far as the notebook uses them *)

Module Np.

(** A 2-D array: its rows, and the extent of the second axis (kept apart
    from the rows so that a shape [(0, W)] exists, as in NumPy). *)
Record ndarray : Type := mk_ndarray {
  ncols : nat;
  rows : list (list Z)
}.

Definition nrows (a : ndarray) : nat := length (rows a).

(** [np.shape(a)], [a.shape] *)
Definition shape (a : ndarray) : nat * nat := (nrows a, ncols a).

(** Every array NumPy builds is rectangular. *)
Definition wf (a : ndarray) : Prop :=
  Forall (fun r => length r = ncols a) (rows a).

Definition wfb (a : ndarray) : bool :=
  forallb (fun r => Nat.eqb (length r) (ncols a)) (rows a).

(** [a[i][j]] for an index inside the shape. *)
Definition get (a : ndarray) (i j : nat) : Z := nth j (nth i (rows a) []) 0.

(** [np.zeros(shape)] *)
Definition zeros (s : nat * nat) : ndarray :=
  {| ncols := snd s; rows := repeat (repeat 0 (snd s)) (fst s) |}.

(** [a[a < 0] = 0]: the boolean-mask assignment, cell by cell. *)
Definition clamp (x : Z) : Z := if x <? 0 then 0 else x.

Definition mask_negative (a : ndarray) : ndarray :=
  {| ncols := ncols a; rows := map (map clamp) (rows a) |}.

(** Broadcasting of one axis: equal extents, or one of them is 1. *)
Definition broadcast_dim (d1 d2 : nat) : option nat :=
  if Nat.eqb d1 1 then Some d2
  else if Nat.eqb d2 1 then Some d1
  else if Nat.eqb d1 d2 then Some d1
  else None.

(** An axis of extent 1 is repeated to the extent [n]; any other axis is
    left as it is. *)
Definition stretch {A : Type} (n : nat) (l : list A) : list A :=
  match l with
  | [x] => repeat x n
  | _ => l
  end.

(** The index read on an axis of extent [d] for the result index [i]. *)
Definition bcast_index (d i : nat) : nat := if Nat.eqb d 1 then 0%nat else i.

Definition broadcast_to (h w : nat) (a : ndarray) : list (list Z) :=
  stretch h (map (stretch w) (rows a)).

Definition zip_with {A B C : Type} (f : A -> B -> C)
    (l1 : list A) (l2 : list B) : list C :=
  map (fun p => f (fst p) (snd p)) (combine l1 l2).

(** [a + b]: a new array; [None] is NumPy's
    "operands could not be broadcast together". *)
Definition add (a b : ndarray) : option ndarray :=
  match broadcast_dim (nrows a) (nrows b),
        broadcast_dim (ncols a) (ncols b) with
  | Some h, Some w =>
      Some {| ncols := w;
              rows := zip_with (zip_with Z.add)
                        (broadcast_to h w a) (broadcast_to h w b) |}
  | _, _ => None
  end.

(** The sum of two arrays of one shape, cell by cell. *)
Definition add_cells (a b : ndarray) : ndarray :=
  {| ncols := ncols a; rows := zip_with (zip_with Z.add) (rows a) (rows b) |}.

(** [np.min(a)], [np.max(a)]: no value for an array without cells. *)
Definition reduce (f : Z -> Z -> Z) (a : ndarray) : option Z :=
  match concat (rows a) with
  | [] => None
  | x :: t => Some (fold_left f t x)
  end.

Definition min (a : ndarray) : option Z := reduce Z.min a.
Definition max (a : ndarray) : option Z := reduce Z.max a.

(** [l[::k]] for a positive step: the elements at 0, k, 2k, ...
    [skip] counts the elements still to pass over before the next one
    is taken. *)
Fixpoint stride_from {A : Type} (k skip : nat) (l : list A) : list A :=
  match l with
  | [] => []
  | x :: t =>
      match skip with
      | O => x :: stride_from k (Nat.pred k) t
      | S s => stride_from k s t
      end
  end.

Definition slice_step {A : Type} (k : nat) (l : list A) : list A :=
  stride_from k 0 l.

(** Number of indices 0, k, 2k, ... below [n]. *)
Definition slice_len (k n : nat) : nat := Nat.div (n + Nat.pred k) k.

(** [a[::k, ::k]] *)
Definition decimate (k : nat) (a : ndarray) : ndarray :=
  {| ncols := slice_len k (ncols a);
     rows := map (slice_step k) (slice_step k (rows a)) |}.


End Np.

(** ** The notebook *)

Module Ghe.
Import Np.

(** Python's string [+]. *)
Local Infix "+s" := String.append (at level 50, left associativity).

(** What can abort a run.  [FetchError] stands for a failing
    [urlretrieve] or blob listing, [FormatError] for [gzip] or [netCDF4]
    refusing the downloaded bytes; the others are the interpreter's and
    NumPy's own. *)
Inductive exn : Type :=
| FetchError | FormatError | IndexError | AttributeError
| ValueError | NameError | AssertionError.

(** A netCDF variable: its values and its optional [units] attribute. *)
Record variable : Type := mk_variable {
  values : ndarray;
  units : option string
}.

(** [dataset.variables], by name. *)
Definition dataset : Type := list (string * variable).

(** What a URL serves: bytes that are not a gzipped netCDF file, or one. *)
Inductive payload : Type :=
| Garbage
| GzNetcdf (d : dataset).

(** The blob store: the names in the container in the store's enumeration
    order ([None]: the listing fails), and what each URL serves
    ([None]: the download fails). *)
Record World : Type := mk_World {
  container : option (list string);
  http_get : string -> option payload
}.

Inductive message : Type :=
| MsgVariables (d : dataset)
| MsgFinding (prefix : string)
| MsgFound (n : nat)
| MsgRange (min_rf : Z) (rain_units : string) (max_rf : Z)
| MsgDescription (d : option dataset).

(** What a run does to the outside, in order. *)
Inductive event : Type :=
| Download (url : string)
| ListBlobs (name_starts_with : string)
| Print (m : message).

Inductive result (A : Type) : Type :=
| Ok (a : A)
| Raise (e : exn).
Arguments Ok {A} a.
Arguments Raise {A} e.

(** Commands: they extend the trace of events and return or raise. *)
Definition M (A : Type) : Type := list event -> list event * result A.

Definition ret {A : Type} (a : A) : M A := fun t => (t, Ok a).

Definition raise {A : Type} (e : exn) : M A := fun t => (t, Raise e).

Definition bind {A B : Type} (m : M A) (k : A -> M B) : M B :=
  fun t =>
    match m t with
    | (t', Ok a) => k a t'
    | (t', Raise e) => (t', Raise e)
    end.

Definition emit (e : event) : M unit := fun t => (t ++ [e], Ok tt).

Definition or_raise {A : Type} (e : exn) (o : option A) : M A :=
  match o with
  | Some a => ret a
  | None => raise e
  end.

Local Notation "x <- m ;; k" := (bind m (fun x => k))
  (at level 61, m at next level, right associativity).
Local Notation "m ;;; k" := (bind m (fun _ => k))
  (at level 61, right associativity).

Definition grid_file_url : string :=
  "https://ghe.blob.core.windows.net/noaa-ghe/NPR.GEO.GHE.v1.Navigation.netcdf.gz".

Definition storage_account_name : string := "ghe".
Definition container_name : string := "noaa-ghe".
Definition storage_account_url : string :=
  "https://" +s storage_account_name +s ".blob.core.windows.net".
Definition ghe_blob_root : string :=
  storage_account_url +s "/" +s container_name +s "/".

Definition ds_factor : nat := 10.

(** The selection cell's parameters. *)
Record Config : Type := mk_Config {
  product : string;
  syear : string;
  smonth : string;
  sday : string;
  single_time_point : bool;
  stime : string
}.

(** The values the notebook is checked in with. *)
Definition notebook_config : Config :=
  {| product := "rain_rate"; syear := "2020"; smonth := "04"; sday := "09";
     single_time_point := false; stime := "0200" |}.

(** The accumulation cell's variables; [rain_units = None] is the name
    not being bound yet, [variable_description = None] is Python's
    [None]. *)
Record Acc : Type := mk_Acc {
  rainfall : ndarray;
  variable_description : option dataset;
  rain_units : option string
}.

(** The globals left by the cells up to the downsampling. *)
Record Globals : Type := mk_Globals {
  g_blob_urls : list string;
  g_lat_grid_raw : variable;
  g_lon_grid_raw : variable;
  g_min_rf : Z;
  g_max_rf : Z;
  g_rain_units : string;
  g_rainfall_raw : ndarray;
  g_lon_grid : ndarray;
  g_lat_grid : ndarray;
  g_rainfall : ndarray
}.

Section Run.

Variable w : World.

(** [download_url(url)]: one HTTP GET; the file it leaves in the
    temporary directory is read back at once by the caller, so the
    command returns its content. *)
Definition download_url (url : string) : M payload :=
  emit (Download url) ;;;
  or_raise FetchError (http_get w url).

(** [gzip.open(...)], [netCDF4.Dataset(..., memory=gz.read())] *)
Definition open_dataset (p : payload) : M dataset :=
  match p with
  | Garbage => raise FormatError
  | GzNetcdf d => ret d
  end.

Fixpoint lookup (name : string) (d : dataset) : option variable :=
  match d with
  | [] => None
  | (n, v) :: rest => if String.eqb n name then Some v else lookup name rest
  end.

(** [dataset[name]] *)
Definition getitem (d : dataset) (name : string) : M variable :=
  or_raise IndexError (lookup name d).

(** [ghe_container_client.list_blobs(name_starts_with=prefix)] *)
Definition list_blobs (prefix : string) : M (list string) :=
  emit (ListBlobs prefix) ;;;
  names <- or_raise FetchError (container w) ;;
  ret (filter (String.prefix prefix) names).

(** The grid cell. *)
Definition load_grid : M (variable * variable) :=
  grid_filename_gz <- download_url grid_file_url ;;
  grid_dataset <- open_dataset grid_filename_gz ;;
  emit (Print (MsgVariables grid_dataset)) ;;;
  lat_grid_raw <- getitem grid_dataset "latitude" ;;
  lon_grid_raw <- getitem grid_dataset "longitude" ;;
  ret (lat_grid_raw, lon_grid_raw).

(** The selection cell. *)
Definition select (c : Config) : M (list string) :=
  if single_time_point c then
    let filename :=
      "NPR.GEO.GHE.v1.S" +s syear c +s smonth c +s sday c +s stime c
        +s ".nc.gz" in
    ret [ghe_blob_root +s product c +s "/" +s syear c +s "/" +s smonth c
           +s "/" +s sday c +s "/" +s filename]
  else
    let prefix :=
      product c +s "/" +s syear c +s "/" +s smonth c +s "/" +s sday c in
    emit (Print (MsgFinding prefix)) ;;;
    generator <- list_blobs prefix ;;
    let blob_urls := map (fun name => ghe_blob_root +s name) generator in
    emit (Print (MsgFound (length blob_urls))) ;;;
    ret blob_urls.

(** The body of the accumulation loop, over exact cell values none of
    which is masked; [Ma.fold] has lines 148 and 152 on float64 arrays
    with masks. *)
Definition fold_sample (st : Acc) (blob_url : string) : M Acc :=
  filename <- download_url blob_url ;;
  dataset <- open_dataset filename ;;
  rain <- getitem dataset "rain" ;;
  let rainfall_sample := mask_negative (values rain) in
  let variable_description := Some dataset in
  rain_units <- or_raise AttributeError (units rain) ;;
  rainfall <- or_raise ValueError (add (rainfall st) rainfall_sample) ;;
  ret {| rainfall := rainfall;
         variable_description := variable_description;
         rain_units := Some rain_units |}.

Fixpoint accumulate (st : Acc) (blob_urls : list string) : M Acc :=
  match blob_urls with
  | [] => ret st
  | blob_url :: rest =>
      st' <- fold_sample st blob_url ;;
      accumulate st' rest
  end.

Definition init_acc (lat_grid_raw : variable) : Acc :=
  {| rainfall := zeros (shape (values lat_grid_raw));
     variable_description := None;
     rain_units := None |}.

Definition assert (b : bool) : M unit :=
  if b then ret tt else raise AssertionError.

Definition shape_eqb (s1 s2 : nat * nat) : bool :=
  Nat.eqb (fst s1) (fst s2) && Nat.eqb (snd s1) (snd s2).

(** The rest of the accumulation cell (range, backup copy) and the
    downsampling cell. *)
Definition finish (blob_urls : list string)
    (lat_grid_raw lon_grid_raw : variable) (st : Acc) : M Globals :=
  min_rf <- or_raise ValueError (Np.min (rainfall st)) ;;
  max_rf <- or_raise ValueError (Np.max (rainfall st)) ;;
  units <- or_raise NameError (rain_units st) ;;
  emit (Print (MsgRange min_rf units max_rf)) ;;;
  let rainfall_raw := rainfall st in
  emit (Print (MsgDescription (variable_description st))) ;;;
  assert (shape_eqb (shape rainfall_raw) (shape (values lat_grid_raw))) ;;;
  assert (shape_eqb (shape rainfall_raw) (shape (values lon_grid_raw))) ;;;
  let lon_grid := decimate ds_factor (values lon_grid_raw) in
  let lat_grid := decimate ds_factor (values lat_grid_raw) in
  let rainfall := decimate ds_factor rainfall_raw in
  ret {| g_blob_urls := blob_urls;
         g_lat_grid_raw := lat_grid_raw;
         g_lon_grid_raw := lon_grid_raw;
         g_min_rf := min_rf;
         g_max_rf := max_rf;
         g_rain_units := units;
         g_rainfall_raw := rainfall_raw;
         g_lon_grid := lon_grid;
         g_lat_grid := lat_grid;
         g_rainfall := rainfall |}.

(** The cells in order, from an empty trace. *)
Definition notebook (c : Config) : M Globals :=
  grid <- load_grid ;;
  blob_urls <- select c ;;
  st <- accumulate (init_acc (fst grid)) blob_urls ;;
  finish blob_urls (fst grid) (snd grid) st.

Definition run (c : Config) : list event * result Globals := notebook c [].

End Run.

(** Unfolds the commands down to functions on traces. *)
Ltac unfold_cmd :=
  unfold download_url, open_dataset, getitem, list_blobs, assert,
    or_raise, emit, bind, ret, raise in *.

(** The [rain] variable a URL serves, when its download and decoding
    succeed. *)
Definition sample_at (w : World) (url : string) : option variable :=
  match http_get w url with
  | Some (GzNetcdf d) => lookup "rain" d
  | _ => None
  end.

(** Its values after the masking of line 148. *)
Definition masked_sample (w : World) (url : string) : ndarray :=
  match sample_at w url with
  | Some v => mask_negative (values v)
  | None => zeros (0%nat, 0%nat)
  end.

(** A URL that serves a rectangular [rain] array of shape [s] with a
    [units] attribute. *)
Definition good_sample (w : World) (s : nat * nat) (url : string) : Prop :=
  exists v un,
    sample_at w url = Some v /\ units v = Some un /\
    wf (values v) /\ shape (values v) = s.

(** The prefix of the full-day mode. *)
Definition day_prefix (c : Config) : string :=
  product c +s "/" +s syear c +s "/" +s smonth c +s "/" +s sday c.

(** One axis extent fits another: it is 1 or equal to it. *)
Definition fits (d h : nat) : Prop := d = 1%nat \/ d = h.

(** *** Small stores to run the notebook on *)

Local Open Scope string_scope.

Definition arr (w : nat) (r : list (list Z)) : ndarray :=
  {| ncols := w; rows := r |}.

Definition rain_file (r : ndarray) (u : string) : payload :=
  GzNetcdf [("rain", {| values := r; units := Some u |})].

(** A reference grid of shape (2,2). *)
Definition lat22 : variable :=
  {| values := arr 2 [[50; 50]; [40; 40]]; units := Some "degrees_north" |}.
Definition lon22 : variable :=
  {| values := arr 2 [[7; 8]; [7; 8]]; units := Some "degrees_east" |}.
Definition grid22 : payload :=
  GzNetcdf [("latitude", lat22); ("longitude", lon22)].

(** A reference grid of shape (1,12), and an aggregate over it. *)
Definition lat_strip : variable :=
  {| values := arr 12 [[50; 50; 50; 50; 50; 50; 50; 50; 50; 50; 50; 50]];
     units := Some "degrees_north" |}.
Definition lon_strip : variable :=
  {| values := arr 12 [[0; 1; 2; 3; 4; 5; 6; 7; 8; 9; 10; 11]];
     units := Some "degrees_east" |}.
Definition acc_strip : Acc :=
  {| rainfall := arr 12 [[0; 3; 0; 0; 1; 0; 0; 0; 0; 2; 9; 4]];
     variable_description := None;
     rain_units := Some "mm" |}.

Definition url_a : string := ghe_blob_root +s "rain_rate/2020/04/09/a.nc.gz".
Definition url_b : string := ghe_blob_root +s "rain_rate/2020/04/09/b.nc.gz".

(** A store that serves the grid and the listed rain files. *)
Definition serve (grid : payload) (files : list (string * payload))
    (url : string) : option payload :=
  if String.eqb url grid_file_url then Some grid
  else
    (fix find (l : list (string * payload)) : option payload :=
       match l with
       | [] => None
       | (u, p) :: rest => if String.eqb u url then Some p else find rest
       end) files.

(** Two samples under the selected day, and a blob of another day. *)
Definition world_two : World :=
  {| container := Some ["rain_rate/2020/04/08/z.nc.gz";
                        "rain_rate/2020/04/09/a.nc.gz";
                        "rain_rate/2020/04/09/b.nc.gz"];
     http_get := serve grid22
       [(url_a, rain_file (arr 2 [[1; -1]; [0; 2]]) "mm");
        (url_b, rain_file (arr 2 [[3; 4]; [-1; -1]]) "mm")] |}.

(** No blob under the selected day. *)
Definition world_none : World :=
  {| container := Some ["rain_rate/2020/04/08/z.nc.gz"];
     http_get := serve grid22 [] |}.

(** One sample of shape (1,2) against the (2,2) grid. *)
Definition world_row : World :=
  {| container := Some ["rain_rate/2020/04/09/a.nc.gz"];
     http_get := serve grid22 [(url_a, rain_file (arr 2 [[5; 7]]) "mm")] |}.

(** One sample of shape (3,2) against the (2,2) grid. *)
Definition world_tall : World :=
  {| container := Some ["rain_rate/2020/04/09/a.nc.gz"];
     http_get := serve grid22
       [(url_a, rain_file (arr 2 [[1; 2]; [3; 4]; [5; 6]]) "mm")] |}.

(** The first sample is not a gzip file. *)
Definition world_corrupt : World :=
  {| container := Some ["rain_rate/2020/04/09/a.nc.gz";
                        "rain_rate/2020/04/09/b.nc.gz"];
     http_get := serve grid22
       [(url_a, Garbage);
        (url_b, rain_file (arr 2 [[3; 4]; [-1; -1]]) "mm")] |}.

(** Two samples with different units. *)
Definition world_units : World :=
  {| container := Some ["rain_rate/2020/04/09/a.nc.gz";
                        "rain_rate/2020/04/09/b.nc.gz"];
     http_get := serve grid22
       [(url_a, rain_file (arr 2 [[1; -1]; [0; 2]]) "mm");
        (url_b, rain_file (arr 2 [[3; 4]; [-1; -1]]) "inch")] |}.

End Ghe.

(** ** The temporary files of [download_url] and the clean-up cell *)

Module GheFiles.
Import Ghe.

Local Infix "+s" := String.append (at level 50, left associativity).
Local Open Scope string_scope.
Local Open Scope list_scope.

(** [s.replace(old, new)] for a non-empty [old]: the occurrences of
    [old] are replaced from left to right, without overlap.  [skip]
    counts the characters of a replaced occurrence still to pass over. *)
Fixpoint replace_from (old new : string) (skip : nat) (s : string)
    : string :=
  match s with
  | EmptyString => EmptyString
  | String c t =>
      match skip with
      | S k => replace_from old new k t
      | O =>
          if String.prefix old s
          then new +s replace_from old new (Nat.pred (String.length old)) t
          else String c (replace_from old new 0 t)
      end
  end.

Definition replace (old new s : string) : string := replace_from old new 0 s.

(** [c in s] *)
Fixpoint contains_char (c : ascii) (s : string) : bool :=
  match s with
  | EmptyString => false
  | String x t => Ascii.eqb x c || contains_char c t
  end.

(** [s.endswith(c)] *)
Fixpoint ends_with_char (c : ascii) (s : string) : bool :=
  match s with
  | EmptyString => false
  | String x EmptyString => Ascii.eqb x c
  | String _ t => ends_with_char c t
  end.

(** [os.path.join(a, b)] on POSIX. *)
Definition path_join (a b : string) : string :=
  if String.prefix "/" b then b
  else if String.eqb a "" || ends_with_char "/" a then a +s b
  else a +s "/" +s b.

(** The first two lines of [download_url]. *)
Definition url_as_filename (url : string) : string :=
  replace "/" "_" (replace "://" "_" url).

(** The files by path; a file holds what was downloaded into it. *)
Definition files : Type := string -> option payload.

Definition write_file (fs : files) (path : string) (p : payload) : files :=
  fun q => if String.eqb q path then Some p else fs q.

(** The paths below the directory [dir]. *)
Definition under (dir path : string) : bool := String.prefix (dir +s "/") path.

(** [shutil.rmtree(dir)] *)
Definition rmtree (dir : string) (fs : files) : files :=
  fun q => if under dir q then None else fs q.

Section Files.

Variable w : World.

(** [tempfile.gettempdir()] *)
Variable gettempdir : string.

Definition temp_dir : string := path_join gettempdir "ghe".

Definition destination_filename (url : string) : string :=
  path_join temp_dir (url_as_filename url).

(** What a failing download of a URL has written to its destination:
    [None] when it fails before the file is opened (the URL cannot be
    opened), [Some p] when it fails after (the connection breaks, or
    the content is shorter than announced), the file then holding the
    bytes received. *)
Variable interrupted : string -> option payload.

(** [urllib.request.urlretrieve(url, filename)] *)
Definition urlretrieve (url filename : string) (fs : files)
    : files * result unit :=
  match http_get w url with
  | None =>
      (match interrupted url with
       | Some p => write_file fs filename p
       | None => fs
       end,
       Raise FetchError)
  | Some p => (write_file fs filename p, Ok tt)
  end.

(** [download_url(url)] with the file it leaves. *)
Definition download_url_file (url : string) (fs : files)
    : files * result string :=
  match urlretrieve url (destination_filename url) fs with
  | (fs', Ok _) => (fs', Ok (destination_filename url))
  | (fs', Raise e) => (fs', Raise e)
  end.

(** The files after the downloads of [urls] as far as they succeed, the
    first failure ending them as it ends the run. *)
Fixpoint downloads (urls : list string) (fs : files) : files :=
  match urls with
  | [] => fs
  | url :: rest =>
      match download_url_file url fs with
      | (fs', Ok _) => downloads rest fs'
      | (fs', Raise _) => fs'
      end
  end.

End Files.

End GheFiles.

(** ** The values handed to the colour mesh (the plotting cell) *)

Module GhePlot.
Import Np Ghe.

(** A masked array: [None] is a masked cell. *)
Record masked_array : Type := mk_masked_array {
  m_ncols : nat;
  m_rows : list (list (option Z))
}.

(** [a < b] on exact rationals. *)
Definition Qltb (a b : QArith_base.Q) : bool :=
  negb (QArith_base.Qle_bool b a).

Definition upper_plot_threshold (n_files : nat) : Z := Z.of_nat n_files * 10.

(** [n_files*0.01] *)
Definition lower_plot_threshold (n_files : nat) : QArith_base.Q :=
  QArith_base.Qmult (QArith_base.inject_Z (Z.of_nat n_files))
    (QArith_base.Qmake 1 100).

(** [Z[Z > upper_plot_threshold] = upper_plot_threshold] *)
Definition clip_upper (n_files : nat) (a : ndarray) : ndarray :=
  {| ncols := ncols a;
     rows := map (map (fun v => if v >? upper_plot_threshold n_files
                                then upper_plot_threshold n_files else v))
               (rows a) |}.

(** [Z[Z < lower_plot_threshold] = np.nan] and
    [np.ma.masked_where(np.isnan(Z), Z)] *)
Definition mask_lower (n_files : nat) (a : ndarray) : masked_array :=
  {| m_ncols := ncols a;
     m_rows := map (map (fun v =>
                       if Qltb (QArith_base.inject_Z v)
                            (lower_plot_threshold n_files)
                       then None else Some v))
                 (rows a) |}.

(** The array [Z] of the plotting cell. *)
Definition plot_values (blob_urls : list string) (rainfall : ndarray)
    : masked_array :=
  let n_files := length blob_urls in
  mask_lower n_files (clip_upper n_files rainfall).

(** [Z[i][j]] for an index inside the shape. *)
Definition m_get (a : masked_array) (i j : nat) : option Z :=
  nth j (nth i (m_rows a) []) None.

End GhePlot.

(** ** Traces, and more stores to run the notebook on *)

Module GheCases.
Import Np Ghe.

Local Open Scope string_scope.
Local Open Scope list_scope.

(** The URLs a trace downloaded, in order. *)
Definition downloads_of (t : list event) : list string :=
  flat_map (fun e => match e with Download url => [url] | _ => [] end) t.

(** The listing calls of a trace. *)
Definition listings_of (t : list event) : list string :=
  flat_map (fun e => match e with ListBlobs p => [p] | _ => [] end) t.

(** Nothing can be reached. *)
Definition world_offline : World :=
  {| container := None; http_get := fun _ => None |}.

(** The grid file is served, the listing fails. *)
Definition world_nolist : World :=
  {| container := None;
     http_get := serve grid22
       [(url_a, rain_file (arr 2 [[1; -1]; [0; 2]]) "mm")] |}.

(** The grid file has no [latitude]. *)
Definition world_nolat : World :=
  {| container := Some [];
     http_get := serve (GzNetcdf [("longitude", lon22)]) [] |}.

(** A latitude grid of shape (2,2) with a longitude grid of shape (1,2). *)
Definition world_skew : World :=
  {| container := Some ["rain_rate/2020/04/09/a.nc.gz"];
     http_get := serve
       (GzNetcdf [("latitude", lat22);
                  ("longitude", {| values := arr 2 [[7; 8]];
                                   units := Some "degrees_east" |})])
       [(url_a, rain_file (arr 2 [[1; -1]; [0; 2]]) "mm")] |}.

(** The single-time selection of the notebook's day. *)
Definition single_config : Config :=
  {| product := "rain_rate"; syear := "2020"; smonth := "04"; sday := "09";
     single_time_point := true; stime := "0200" |}.

Definition url_0200 : string :=
  "https://ghe.blob.core.windows.net/noaa-ghe/rain_rate/2020/04/09/NPR.GEO.GHE.v1.S202004090200.nc.gz".

(** The 02:00 scan and another one of the same day. *)
Definition world_day : World :=
  {| container := Some ["rain_rate/2020/04/09/NPR.GEO.GHE.v1.S202004090145.nc.gz";
                        "rain_rate/2020/04/09/NPR.GEO.GHE.v1.S202004090200.nc.gz"];
     http_get := serve grid22
       [(url_0200, rain_file (arr 2 [[1; -1]; [0; 2]]) "mm")] |}.

(** A (1,2) grid with a sample of shape (2,2). *)
Definition lat12 : variable :=
  {| values := arr 2 [[50; 50]]; units := Some "degrees_north" |}.
Definition lon12 : variable :=
  {| values := arr 2 [[7; 8]]; units := Some "degrees_east" |}.
Definition world_flat : World :=
  {| container := Some ["rain_rate/2020/04/09/a.nc.gz"];
     http_get := serve (GzNetcdf [("latitude", lat12); ("longitude", lon12)])
       [(url_a, rain_file (arr 2 [[1; 2]; [3; 4]]) "mm")] |}.


End GheCases.

(** ** The fold step on float64 arrays with masks *)

(** The arrays of lines 131 to 152 as NumPy holds them: [rainfall] is
    float64, and [dataset['rain'][:]] is a [numpy.ma] array whose cells
    at the variable's fill value are masked. *)

Module Ma.
Import Np.

(** A cell: a float64 value, or [None] for a masked cell. *)
Abbreviation cell := (option float) (only parsing).

Record farray : Type := mk_farray {
  f_ncols : nat;
  f_rows : list (list cell)
}.

Definition nrows (a : farray) : nat := length (f_rows a).

Definition shape (a : farray) : nat * nat := (nrows a, f_ncols a).

Definition wf (a : farray) : Prop :=
  Forall (fun r => length r = f_ncols a) (f_rows a).

Definition wfb (a : farray) : bool :=
  forallb (fun r => Nat.eqb (length r) (f_ncols a)) (f_rows a).

(** [a[i][j]] for an index inside the shape. *)
Definition get (a : farray) (i j : nat) : cell := nth j (nth i (f_rows a) []) None.

(** [np.zeros(shape)]: float64 zeros, no cell masked. *)
Definition zeros (s : nat * nat) : farray :=
  {| f_ncols := snd s;
     f_rows := repeat (repeat (Some 0%float) (snd s)) (fst s) |}.

(** [a[a < 0] = 0] on a masked array: the unmasked values below zero
    become zero, and the mask stays as it is. *)
Definition clamp (x : float) : float :=
  if PrimFloat.ltb x 0%float then 0%float else x.

Definition mask_negative (a : farray) : farray :=
  {| f_ncols := f_ncols a;
     f_rows := map (map (option_map clamp)) (f_rows a) |}.

(** The sum of two cells: masked when either is, else the float64 sum. *)
Definition add_cell (a b : cell) : cell :=
  match a, b with
  | Some x, Some y => Some (PrimFloat.add x y)
  | _, _ => None
  end.

Definition broadcast_rows {A : Type} (h w : nat) (rows : list (list A))
    : list (list A) :=
  stretch h (map (stretch w) rows).

(** [a + b], with NumPy's broadcasting; [None] is
    "operands could not be broadcast together". *)
Definition add (a b : farray) : option farray :=
  match broadcast_dim (nrows a) (nrows b),
        broadcast_dim (f_ncols a) (f_ncols b) with
  | Some h, Some w =>
      Some {| f_ncols := w;
              f_rows := zip_with (zip_with add_cell)
                          (broadcast_rows h w (f_rows a))
                          (broadcast_rows h w (f_rows b)) |}
  | _, _ => None
  end.

(** Lines 148 and 152: [rainfall_sample[rainfall_sample < 0] = 0] and
    [rainfall = rainfall + rainfall_sample]. *)
Definition fold (rainfall rainfall_sample : farray) : option farray :=
  add rainfall (mask_negative rainfall_sample).

(** The loop over the samples in order, as far as the additions go. *)
Fixpoint accumulate (rainfall : farray) (samples : list farray)
    : option farray :=
  match samples with
  | [] => Some rainfall
  | rainfall_sample :: rest =>
      match fold rainfall rainfall_sample with
      | Some rainfall' => accumulate rainfall' rest
      | None => None
      end
  end.

Definition farr (w : nat) (r : list (list cell)) : farray :=
  {| f_ncols := w; f_rows := r |}.

(** 2^53, from which on float64 no longer holds every integer. *)
Definition two53 : float := 9007199254740992%float.

End Ma.

(** ** Facts about the array operations *)

Module NpFacts.
Import Np.

Section Lists.

Context {A : Type}.

Lemma stretch_same (n : nat) (l : list A) :
  length l = n -> stretch n l = l.
Proof.
  destruct l as [|x [|y t]]; simpl; intros <-; reflexivity.
Qed.

Lemma length_stretch (n : nat) (l : list A) :
  length l = 1%nat \/ length l = n -> length (stretch n l) = n.
Proof.
  destruct l as [|x [|y t]]; simpl; intros [H|H];
    try discriminate; try (now rewrite repeat_length); auto.
Qed.

Lemma nth_stretch (n i : nat) (l : list A) (d : A) :
  (i < n)%nat ->
  nth i (stretch n l) d = nth (bcast_index (length l) i) l d.
Proof.
  intros Hi.
  destruct l as [|x [|y t]]; simpl; try reflexivity.
  rewrite (nth_indep _ d x) by (now rewrite repeat_length).
  apply nth_repeat.
Qed.

Lemma Forall_stretch (P : A -> Prop) (n : nat) (l : list A) :
  Forall P l -> Forall P (stretch n l).
Proof.
  destruct l as [|x [|y t]]; simpl; auto.
  intros H. inversion_clear H. apply Forall_forall.
  intros z Hz. apply repeat_spec in Hz. now subst.
Qed.

Lemma nth_stride_from (k s i : nat) (l : list A) (d : A) :
  (1 <= k)%nat ->
  nth i (stride_from k s l) d = nth (s + k * i) l d.
Proof.
  intros Hk. revert s i.
  induction l as [|x t IH]; intros s i; simpl.
  - destruct (s + k * i)%nat; destruct i; reflexivity.
  - destruct s as [|s].
    + destruct i as [|i]; simpl.
      * now rewrite Nat.mul_0_r.
      * rewrite IH.
        replace (k * S i)%nat with (S (Nat.pred k + k * i)) by lia.
        reflexivity.
    + rewrite IH. reflexivity.
Qed.

Lemma length_stride_from (k s : nat) (l : list A) :
  (1 <= k)%nat ->
  length (stride_from k s l) = ((length l + Nat.pred k - s) / k)%nat.
Proof.
  intros Hk. revert s.
  induction l as [|x t IH]; intros s; simpl.
  - symmetry. apply Nat.div_small. lia.
  - destruct s as [|s]; cbn [length]; rewrite IH.
    + replace (length t + Nat.pred k - Nat.pred k)%nat
        with (length t) by lia.
      replace (S (length t + Nat.pred k))
        with (length t + 1 * k)%nat by lia.
      rewrite Nat.div_add by lia. lia.
    + reflexivity.
Qed.

Lemma length_slice_step (k : nat) (l : list A) :
  (1 <= k)%nat -> length (slice_step k l) = slice_len k (length l).
Proof.
  intros Hk. unfold slice_step, slice_len.
  rewrite length_stride_from by assumption.
  now rewrite Nat.sub_0_r.
Qed.

Lemma nth_slice_step (k i : nat) (l : list A) (d : A) :
  (1 <= k)%nat -> nth i (slice_step k l) d = nth (k * i) l d.
Proof.
  intros Hk. unfold slice_step. now rewrite nth_stride_from.
Qed.

End Lists.

(** An index of a slice with step [k] names the [k]-fold index of the
    sliced axis. *)
Lemma slice_len_lt (k n i : nat) :
  (1 <= k)%nat -> (i < slice_len k n)%nat <-> (k * i < n)%nat.
Proof.
  intros Hk. unfold slice_len. split; intros H.
  - destruct (Nat.lt_ge_cases (k * i) n) as [|Hge]; [assumption|].
    exfalso.
    assert ((n + Nat.pred k) / k <= i)%nat; [|lia].
    apply Nat.lt_succ_r, Nat.Div0.div_lt_upper_bound; lia.
  - apply Nat.div_le_lower_bound; lia.
Qed.

Section Zip.

Context {A B C : Type} (f : A -> B -> C).

Lemma length_zip_with (l1 : list A) (l2 : list B) :
  length (zip_with f l1 l2) = Nat.min (length l1) (length l2).
Proof.
  unfold zip_with. now rewrite length_map, length_combine.
Qed.

Lemma nth_zip_with (l1 : list A) (l2 : list B) (i : nat)
    (d1 : A) (d2 : B) (d : C) :
  (i < length l1)%nat -> (i < length l2)%nat ->
  nth i (zip_with f l1 l2) d = f (nth i l1 d1) (nth i l2 d2).
Proof.
  revert l2 i.
  induction l1 as [|x t IH]; intros [|y u] i; simpl; try lia.
  destruct i as [|i]; intros H1 H2; [reflexivity|].
  apply IH; lia.
Qed.

Lemma Forall_zip_with (P : A -> Prop) (Q : B -> Prop) (R : C -> Prop)
    (l1 : list A) (l2 : list B) :
  (forall x y, P x -> Q y -> R (f x y)) ->
  Forall P l1 -> Forall Q l2 -> Forall R (zip_with f l1 l2).
Proof.
  intros Hf H1. revert l2.
  induction H1 as [|x t Hx Ht IH]; intros l2 H2; [constructor|].
  destruct H2 as [|y u Hy Hu]; [constructor|].
  unfold zip_with. simpl. constructor; [now apply Hf|].
  now apply IH.
Qed.

End Zip.

(** Folding with an operation in which the folded arguments commute. *)
Lemma zip_with_right_comm {A B : Type} (f : A -> B -> A) :
  (forall a x y, f (f a x) y = f (f a y) x) ->
  forall la lx ly,
    zip_with f (zip_with f la lx) ly = zip_with f (zip_with f la ly) lx.
Proof.
  intros Hf.
  induction la as [|a la IH]; intros [|x lx] [|y ly]; try reflexivity.
  unfold zip_with in *. simpl. now rewrite Hf, IH.
Qed.

Lemma fold_left_perm {A B : Type} (f : A -> B -> A) :
  (forall a x y, f (f a x) y = f (f a y) x) ->
  forall l1 l2, Permutation l1 l2 ->
  forall a, fold_left f l1 a = fold_left f l2 a.
Proof.
  intros Hf l1 l2 Hp.
  induction Hp as [|x l1 l2 _ IH|x y l|l1 l2 l3 _ IH1 _ IH2];
    intros a; simpl.
  - reflexivity.
  - apply IH.
  - now rewrite Hf.
  - now rewrite IH1.
Qed.

(** *** The operations on small arrays *)

Example add_broadcasts_a_row :
  add {| ncols := 2; rows := [[1; 2]; [3; 4]] |}
      {| ncols := 2; rows := [[10; 20]] |}
  = Some {| ncols := 2; rows := [[11; 22]; [13; 24]] |}.
Proof. reflexivity. Qed.

Example add_broadcasts_a_column :
  add {| ncols := 2; rows := [[1; 2]; [3; 4]] |}
      {| ncols := 1; rows := [[10]; [20]] |}
  = Some {| ncols := 2; rows := [[11; 12]; [23; 24]] |}.
Proof. reflexivity. Qed.

Example add_refuses_three_rows_on_two :
  add {| ncols := 2; rows := [[1; 2]; [3; 4]] |}
      {| ncols := 2; rows := [[1; 2]; [3; 4]; [5; 6]] |}
  = None.
Proof. reflexivity. Qed.

Example mask_negative_zeroes_sentinels :
  mask_negative {| ncols := 2; rows := [[1; -1]; [0; -9999]] |}
  = {| ncols := 2; rows := [[1; 0]; [0; 0]] |}.
Proof. reflexivity. Qed.

Example slice_step_takes_every_tenth :
  slice_step 10 (seq 0 25) = [0; 10; 20]%nat.
Proof. reflexivity. Qed.

Example min_of_no_cell :
  Np.min (zeros (0%nat, 5%nat)) = None /\
  Np.min {| ncols := 2; rows := [[4; 4]; [0; 2]] |} = Some 0.
Proof. split; reflexivity. Qed.

(** *** Shapes and cells *)

Lemma wfb_wf (a : ndarray) : wfb a = true <-> wf a.
Proof.
  unfold wfb, wf. rewrite forallb_forall, Forall_forall.
  split; intros H r Hr; apply Nat.eqb_eq; auto.
Qed.

Lemma wf_row (a : ndarray) (i : nat) :
  wf a -> (i < nrows a)%nat -> length (nth i (rows a) []) = ncols a.
Proof.
  intros Hwf Hi. unfold wf in Hwf. rewrite Forall_forall in Hwf.
  apply Hwf, nth_In, Hi.
Qed.

Lemma wf_zeros (s : nat * nat) : wf (zeros s).
Proof.
  apply Forall_forall. intros r Hr. apply repeat_spec in Hr. subst r.
  apply repeat_length.
Qed.

Lemma shape_zeros (s : nat * nat) : shape (zeros s) = s.
Proof.
  destruct s as [h w]. unfold shape, nrows, zeros. simpl.
  now rewrite repeat_length.
Qed.


Lemma clamp_max (x : Z) : clamp x = Z.max x 0.
Proof. unfold clamp. destruct (Z.ltb_spec x 0); lia. Qed.

Lemma wf_mask_negative (a : ndarray) : wf a -> wf (mask_negative a).
Proof.
  unfold wf, mask_negative. simpl. rewrite !Forall_forall.
  intros H r Hr. apply in_map_iff in Hr as (r0 & <- & Hr0).
  rewrite length_map. auto.
Qed.

Lemma shape_mask_negative (a : ndarray) : shape (mask_negative a) = shape a.
Proof. unfold shape, nrows, mask_negative. simpl. now rewrite length_map. Qed.

Lemma get_mask_negative (a : ndarray) (i j : nat) :
  get (mask_negative a) i j = Z.max (get a i j) 0.
Proof.
  unfold get, mask_negative. simpl.
  change (@nil Z) with (map clamp []) at 1.
  rewrite map_nth.
  change 0 with (clamp 0) at 1.
  rewrite map_nth. apply clamp_max.
Qed.



Lemma broadcast_dim_same (d : nat) : broadcast_dim d d = Some d.
Proof.
  unfold broadcast_dim. destruct (Nat.eqb d 1); [reflexivity|].
  now rewrite Nat.eqb_refl.
Qed.

Lemma broadcast_dim_cases (d1 d2 h : nat) :
  broadcast_dim d1 d2 = Some h ->
  (d1 = 1%nat \/ d1 = h) /\ (d2 = 1%nat \/ d2 = h).
Proof.
  unfold broadcast_dim.
  destruct (Nat.eqb_spec d1 1); [intros [= <-]; auto|].
  destruct (Nat.eqb_spec d2 1); [intros [= <-]; auto|].
  destruct (Nat.eqb_spec d1 d2); [intros [= <-]; auto|discriminate].
Qed.

Lemma broadcast_dim_none (d1 d2 : nat) :
  broadcast_dim d1 d2 = None <-> d1 <> 1%nat /\ d2 <> 1%nat /\ d1 <> d2.
Proof.
  unfold broadcast_dim.
  destruct (Nat.eqb_spec d1 1), (Nat.eqb_spec d2 1), (Nat.eqb_spec d1 d2);
    split; try discriminate; try tauto; auto.
Qed.

Lemma bcast_index_lt (d h i : nat) :
  d = 1%nat \/ d = h -> (i < h)%nat -> (bcast_index d i < d)%nat.
Proof.
  unfold bcast_index. destruct (Nat.eqb_spec d 1); lia.
Qed.

Lemma rows_broadcast_to (h w : nat) (a : ndarray) :
  wf a ->
  nrows a = 1%nat \/ nrows a = h ->
  ncols a = 1%nat \/ ncols a = w ->
  length (broadcast_to h w a) = h /\
  Forall (fun r => length r = w) (broadcast_to h w a) /\
  forall i j, (i < h)%nat -> (j < w)%nat ->
    nth j (nth i (broadcast_to h w a) []) 0
    = get a (bcast_index (nrows a) i) (bcast_index (ncols a) j).
Proof.
  intros Hwf Hh Hw. unfold broadcast_to.
  assert (Hlen : length (map (stretch w) (rows a)) = nrows a)
    by apply length_map.
  split; [apply length_stretch; now rewrite Hlen|].
  split.
  - apply Forall_stretch, Forall_forall. intros r Hr.
    apply in_map_iff in Hr as (r0 & <- & Hr0).
    apply length_stretch. unfold wf in Hwf. rewrite Forall_forall in Hwf.
    now rewrite (Hwf _ Hr0).
  - intros i j Hi Hj.
    rewrite nth_stretch by assumption. rewrite Hlen.
    change (@nil Z) with (stretch w (@nil Z)) at 1.
    rewrite map_nth, nth_stretch by assumption.
    rewrite wf_row; [reflexivity|assumption|].
    now apply bcast_index_lt with h.
Qed.

(** What [a + b] is, cell by cell, whenever NumPy accepts the operands. *)
Lemma add_spec (a b c : ndarray) :
  wf a -> wf b -> add a b = Some c ->
  wf c /\
  broadcast_dim (nrows a) (nrows b) = Some (nrows c) /\
  broadcast_dim (ncols a) (ncols b) = Some (ncols c) /\
  forall i j, (i < nrows c)%nat -> (j < ncols c)%nat ->
    get c i j
    = get a (bcast_index (nrows a) i) (bcast_index (ncols a) j)
      + get b (bcast_index (nrows b) i) (bcast_index (ncols b) j).
Proof.
  intros Ha Hb. unfold add.
  destruct (broadcast_dim (nrows a) (nrows b)) as [h|] eqn:Eh;
    [|discriminate].
  destruct (broadcast_dim (ncols a) (ncols b)) as [w|] eqn:Ew;
    [|discriminate].
  intros [= <-].
  destruct (broadcast_dim_cases _ _ _ Eh) as [Hah Hbh].
  destruct (broadcast_dim_cases _ _ _ Ew) as [Haw Hbw].
  destruct (rows_broadcast_to h w a Ha Hah Haw) as (La & Fa & Ga).
  destruct (rows_broadcast_to h w b Hb Hbh Hbw) as (Lb & Fb & Gb).
  assert (Hn : nrows {| ncols := w;
                        rows := zip_with (zip_with Z.add)
                                  (broadcast_to h w a) (broadcast_to h w b) |}
               = h).
  { unfold nrows. simpl. rewrite length_zip_with, La, Lb. lia. }
  rewrite Hn. simpl ncols.
  split; [|split; [reflexivity|split; [reflexivity|]]].
  - unfold wf. simpl.
    apply Forall_zip_with
      with (P := fun r => length r = w) (Q := fun r => length r = w);
      try assumption.
    intros x y Hx Hy. rewrite length_zip_with. lia.
  - intros i j Hi Hj. unfold get at 1. simpl rows.
    rewrite (nth_zip_with _ _ _ _ [] []) by lia.
    assert (Hra : length (nth i (broadcast_to h w a) []) = w).
    { rewrite Forall_forall in Fa. apply Fa, nth_In. lia. }
    assert (Hrb : length (nth i (broadcast_to h w b) []) = w).
    { rewrite Forall_forall in Fb. apply Fb, nth_In. lia. }
    rewrite (nth_zip_with _ _ _ _ 0 0) by lia.
    now rewrite Ga, Gb.
Qed.

(** Operands of one shape are added cell by cell. *)
Lemma add_same_shape (a b : ndarray) :
  wf a -> wf b -> shape a = shape b ->
  add a b = Some (add_cells a b).
Proof.
  intros Ha Hb Hs. unfold shape in Hs. injection Hs as Hr Hc.
  unfold add, add_cells. rewrite <- Hr, <- Hc, !broadcast_dim_same.
  unfold broadcast_to.
  assert (Hst : forall x : ndarray, wf x -> ncols x = ncols a ->
            map (stretch (ncols a)) (rows x) = rows x).
  { intros x Hx Hxc. rewrite <- (map_id (rows x)) at 2.
    apply map_ext_in. intros r Hin. apply stretch_same.
    unfold wf in Hx. rewrite Forall_forall in Hx.
    now rewrite (Hx _ Hin). }
  rewrite (Hst a Ha eq_refl), (Hst b Hb (eq_sym Hc)).
  rewrite (stretch_same (nrows a) (rows a)) by reflexivity.
  rewrite (stretch_same (nrows a) (rows b)) by (symmetry; exact Hr).
  reflexivity.
Qed.

Lemma get_add_cells (a b : ndarray) (i j : nat) :
  wf a -> wf b -> shape a = shape b ->
  (i < nrows a)%nat -> (j < ncols a)%nat ->
  get (add_cells a b) i j = get a i j + get b i j.
Proof.
  intros Ha Hb Hs Hi Hj. unfold shape in Hs. injection Hs as Hr Hc.
  unfold get, add_cells. simpl.
  rewrite (nth_zip_with _ _ _ _ [] []) by (unfold nrows in *; lia).
  apply nth_zip_with.
  - rewrite wf_row; assumption.
  - rewrite wf_row; [lia|assumption|lia].
Qed.

Lemma add_cells_right_comm (a x y : ndarray) :
  add_cells (add_cells a x) y = add_cells (add_cells a y) x.
Proof.
  unfold add_cells. simpl. f_equal.
  apply zip_with_right_comm. intros r1 r2 r3.
  apply zip_with_right_comm. intros; lia.
Qed.


(** Decimation reads the raw array at the [k]-fold indices. *)
Lemma get_decimate (k : nat) (a : ndarray) (i j : nat) :
  (1 <= k)%nat -> get (decimate k a) i j = get a (k * i) (k * j).
Proof.
  intros Hk. unfold get, decimate. simpl.
  change (@nil Z) with (slice_step k (@nil Z)) at 1.
  rewrite map_nth, !nth_slice_step by assumption.
  reflexivity.
Qed.

Lemma nrows_decimate (k : nat) (a : ndarray) :
  (1 <= k)%nat -> nrows (decimate k a) = slice_len k (nrows a).
Proof.
  intros Hk. unfold nrows, decimate. simpl.
  now rewrite length_map, length_slice_step.
Qed.

Lemma wf_decimate (k : nat) (a : ndarray) :
  (1 <= k)%nat -> wf a -> wf (decimate k a).
Proof.
  intros Hk Hwf. unfold wf, decimate in *. simpl.
  rewrite Forall_forall in *. intros r Hr.
  apply in_map_iff in Hr as (r0 & <- & Hr0).
  rewrite length_slice_step by assumption. f_equal.
  apply Hwf. unfold slice_step in Hr0.
  destruct (In_nth _ _ [] Hr0) as (n & Hn & <-).
  rewrite nth_stride_from by assumption.
  rewrite length_stride_from in Hn by assumption.
  apply nth_In.
  apply (slice_len_lt k (length (rows a)) n Hk).
  unfold slice_len. now rewrite Nat.sub_0_r in Hn.
Qed.

End NpFacts.

(** ** Facts about the notebook's cells *)

Module GheFacts.
Import Np NpFacts Ghe.

Local Infix "+s" := String.append (at level 50, left associativity).

(** The loop body, outcome by outcome. *)
Lemma fold_sample_eq (w : World) (st : Acc) (u : string) (t : list event) :
  fold_sample w st u t =
  (t ++ [Download u],
   match http_get w u with
   | None => Raise FetchError
   | Some Garbage => Raise FormatError
   | Some (GzNetcdf d) =>
       match lookup "rain" d with
       | None => Raise IndexError
       | Some v =>
           match units v with
           | None => Raise AttributeError
           | Some un =>
               match add (rainfall st) (mask_negative (values v)) with
               | None => Raise ValueError
               | Some r =>
                   Ok {| rainfall := r;
                         variable_description := Some d;
                         rain_units := Some un |}
               end
           end
       end
   end).
Proof.
  unfold fold_sample. unfold_cmd.
  destruct (http_get w u) as [[|d]|]; try reflexivity.
  destruct (lookup "rain" d) as [v|]; try reflexivity.
  destruct (units v) as [un|]; try reflexivity.
  destruct (add (rainfall st) (mask_negative (values v))); reflexivity.
Qed.

(** A successful loop body read backwards. *)
Lemma fold_sample_ok (w : World) (st st' : Acc) (u : string)
    (t t' : list event) :
  fold_sample w st u t = (t', Ok st') ->
  exists v un,
    sample_at w u = Some v /\ units v = Some un /\
    add (rainfall st) (mask_negative (values v)) = Some (rainfall st') /\
    rain_units st' = Some un /\ t' = t ++ [Download u].
Proof.
  rewrite fold_sample_eq. unfold sample_at.
  destruct (http_get w u) as [[|d]|]; try discriminate.
  destruct (lookup "rain" d) as [v|]; try discriminate.
  destruct (units v) as [un|] eqn:Eu; try discriminate.
  destruct (add (rainfall st) (mask_negative (values v))) as [r|] eqn:Ea;
    try discriminate.
  intros [= <- <-]. exists v, un. auto.
Qed.

Lemma accumulate_cons (w : World) (st : Acc) (u : string)
    (rest : list string) (t : list event) :
  accumulate w st (u :: rest) t =
  match fold_sample w st u t with
  | (t', Ok st') => accumulate w st' rest t'
  | (t', Raise e) => (t', Raise e)
  end.
Proof. reflexivity. Qed.

Lemma accumulate_app (w : World) (l1 l2 : list string) (st : Acc)
    (t : list event) :
  accumulate w st (l1 ++ l2) t =
  match accumulate w st l1 t with
  | (t', Ok st') => accumulate w st' l2 t'
  | (t', Raise e) => (t', Raise e)
  end.
Proof.
  revert st t. induction l1 as [|u l1 IH]; intros st t; [reflexivity|].
  simpl app. rewrite !accumulate_cons.
  destruct (fold_sample w st u t) as [t' [st'|e]]; [apply IH|reflexivity].
Qed.

(** A successful loop downloaded every URL once, in order. *)
Lemma accumulate_trace (w : World) (urls : list string) (st st' : Acc)
    (t t' : list event) :
  accumulate w st urls t = (t', Ok st') -> t' = t ++ map Download urls.
Proof.
  revert st t. induction urls as [|u urls IH]; intros st t.
  - intros [= <- _]. simpl. now rewrite app_nil_r.
  - rewrite accumulate_cons.
    destruct (fold_sample w st u t) as [t1 [st1|e]] eqn:E; [|discriminate].
    intros H. apply IH in H. subst t'.
    apply fold_sample_ok in E as (_ & _ & _ & _ & _ & _ & ->).
    now rewrite <- app_assoc.
Qed.

Lemma shape_add_cells (a b : ndarray) :
  shape a = shape b -> shape (add_cells a b) = shape a.
Proof.
  unfold shape, nrows, add_cells. simpl. intros [= H _].
  rewrite length_zip_with, <- H. f_equal. lia.
Qed.

(** On samples of the aggregate's shape the loop is a left fold of the
    cell-wise sum. *)
Lemma accumulate_good (w : World) (s : nat * nat) (urls : list string) :
  Forall (good_sample w s) urls ->
  forall (st : Acc) (t : list event),
    wf (rainfall st) -> shape (rainfall st) = s ->
    exists st',
      accumulate w st urls t = (t ++ map Download urls, Ok st') /\
      rainfall st'
      = fold_left (fun a u => add_cells a (masked_sample w u)) urls
          (rainfall st) /\
      wf (rainfall st') /\ shape (rainfall st') = s.
Proof.
  induction 1 as [|u urls Hu _ IH]; intros st t Hwf Hs.
  - exists st. simpl. rewrite app_nil_r. auto.
  - destruct Hu as (v & un & Hv & Hun & Hvwf & Hvs).
    assert (Hadd : add (rainfall st) (mask_negative (values v))
                   = Some (add_cells (rainfall st) (mask_negative (values v)))).
    { apply add_same_shape; [assumption|now apply wf_mask_negative|].
      rewrite shape_mask_negative. congruence. }
    rewrite accumulate_cons, fold_sample_eq.
    unfold sample_at in Hv.
    destruct (http_get w u) as [[|d]|] eqn:Eg; try discriminate.
    rewrite Hv, Hun, Hadd.
    edestruct IH as (st' & Hacc & Hr & Hwf' & Hs'); cycle 2.
    + exists st'. rewrite Hacc. simpl map. rewrite <- app_assoc.
      split; [reflexivity|]. split; [|auto].
      rewrite Hr. simpl. unfold masked_sample, sample_at.
      now rewrite Eg, Hv.
    + simpl. destruct (add_spec _ _ _ Hwf (wf_mask_negative _ Hvwf) Hadd).
      assumption.
    + simpl. rewrite shape_add_cells; [assumption|].
      rewrite shape_mask_negative. congruence.
Qed.

(** The shape of a sum, whatever the rows hold. *)
Lemma add_shape (a b c : ndarray) :
  add a b = Some c ->
  broadcast_dim (nrows a) (nrows b) = Some (nrows c) /\
  broadcast_dim (ncols a) (ncols b) = Some (ncols c).
Proof.
  unfold add.
  destruct (broadcast_dim (nrows a) (nrows b)) as [h|] eqn:Eh;
    [|discriminate].
  destruct (broadcast_dim (ncols a) (ncols b)) as [w0|] eqn:Ew;
    [|discriminate].
  intros [= <-]. split; [|reflexivity].
  destruct (broadcast_dim_cases _ _ _ Eh) as [Ha Hb].
  f_equal. symmetry. unfold nrows. cbn [rows]. unfold broadcast_to.
  rewrite length_zip_with, !length_stretch, Nat.min_id;
    try reflexivity; now rewrite length_map.
Qed.

Lemma fits_trans (d h k : nat) : fits d h -> fits h k -> fits d k.
Proof. unfold fits. intros [->| ->] [->| ->]; auto. Qed.

Lemma fits_refl (d : nat) : fits d d.
Proof. now right. Qed.

(** Extents only ever grow by broadcasting: the start and every sample
    fit the shape the loop ends with. *)
Lemma accumulate_fits (w : World) (urls : list string) :
  forall (st st' : Acc) (t t' : list event),
    accumulate w st urls t = (t', Ok st') ->
    (fits (nrows (rainfall st)) (nrows (rainfall st')) /\
     fits (ncols (rainfall st)) (ncols (rainfall st'))) /\
    forall u v, In u urls -> sample_at w u = Some v ->
      fits (nrows (values v)) (nrows (rainfall st')) /\
      fits (ncols (values v)) (ncols (rainfall st')).
Proof.
  induction urls as [|u0 urls IH]; intros st st' t t'.
  - intros [= _ <-]. split; [split; apply fits_refl|]. intros u v [].
  - rewrite accumulate_cons.
    destruct (fold_sample w st u0 t) as [t1 [st1|e]] eqn:E; [|discriminate].
    intros H. apply IH in H as [[Hr Hc] Hall].
    apply fold_sample_ok in E as (v0 & un & Hv0 & _ & Hadd & _).
    apply add_shape in Hadd as [Er Ec].
    apply broadcast_dim_cases in Er as [Er1 Er2].
    apply broadcast_dim_cases in Ec as [Ec1 Ec2].
    assert (Hmr : nrows (mask_negative (values v0)) = nrows (values v0))
      by apply length_map.
    rewrite Hmr in Er2.
    change (ncols (mask_negative (values v0))) with (ncols (values v0))
      in Ec2.
    split; [split; eapply fits_trans; eauto|].
    intros u v [<-|Hin] Hv.
    + rewrite Hv0 in Hv. injection Hv as <-.
      split; eapply fits_trans; eauto.
    + eauto.
Qed.


Lemma accumulate_units (w : World) (urls : list string) (u : string) :
  forall (st st' : Acc) (t t' : list event),
    accumulate w st (urls ++ [u]) t = (t', Ok st') ->
    exists v un,
      sample_at w u = Some v /\ units v = Some un /\
      rain_units st' = Some un.
Proof.
  intros st st' t t'. rewrite accumulate_app.
  destruct (accumulate w st urls t) as [t1 [st1|e]]; [|discriminate].
  rewrite accumulate_cons.
  destruct (fold_sample w st1 u t1) as [t2 [st2|e]] eqn:E; [|discriminate].
  intros [= _ <-].
  apply fold_sample_ok in E as (v & un & Hv & Hun & _ & Hru & _).
  eauto.
Qed.

(** The cells of a run, one after the other. *)
Lemma run_eq (w : World) (c : Config) :
  run w c =
  match load_grid w [] with
  | (t0, Raise e) => (t0, Raise e)
  | (t0, Ok grid) =>
      match select w c t0 with
      | (t1, Raise e) => (t1, Raise e)
      | (t1, Ok blob_urls) =>
          match accumulate w (init_acc (fst grid)) blob_urls t1 with
          | (t2, Raise e) => (t2, Raise e)
          | (t2, Ok st) => finish blob_urls (fst grid) (snd grid) st t2
          end
      end
  end.
Proof.
  unfold run, notebook, bind.
  destruct (load_grid w []) as [t0 [grid|e]]; [|reflexivity].
  destruct (select w c t0) as [t1 [urls|e]]; [|reflexivity].
  destruct (accumulate w (init_acc (fst grid)) urls t1) as [t2 [st|e]];
    reflexivity.
Qed.

Lemma shape_eqb_eq (s1 s2 : nat * nat) : shape_eqb s1 s2 = true <-> s1 = s2.
Proof.
  destruct s1 as [a b], s2 as [c d]. unfold shape_eqb. simpl.
  rewrite andb_true_iff, !Nat.eqb_eq. split; [intros [-> ->]|intros [= -> ->]];
    auto.
Qed.

(** A successful last part read backwards. *)
Lemma finish_ok (blob_urls : list string) (lat lon : variable) (st : Acc)
    (t t' : list event) (g : Globals) :
  finish blob_urls lat lon st t = (t', Ok g) ->
  exists mn mx un,
    Np.min (rainfall st) = Some mn /\ Np.max (rainfall st) = Some mx /\
    rain_units st = Some un /\
    shape (rainfall st) = shape (values lat) /\
    shape (rainfall st) = shape (values lon) /\
    t' = t ++ [Print (MsgRange mn un mx);
               Print (MsgDescription (variable_description st))] /\
    g = {| g_blob_urls := blob_urls;
           g_lat_grid_raw := lat;
           g_lon_grid_raw := lon;
           g_min_rf := mn;
           g_max_rf := mx;
           g_rain_units := un;
           g_rainfall_raw := rainfall st;
           g_lon_grid := decimate ds_factor (values lon);
           g_lat_grid := decimate ds_factor (values lat);
           g_rainfall := decimate ds_factor (rainfall st) |}.
Proof.
  unfold finish. unfold_cmd.
  destruct (Np.min (rainfall st)) as [mn|]; [|discriminate].
  destruct (Np.max (rainfall st)) as [mx|]; [|discriminate].
  destruct (rain_units st) as [un|]; [|discriminate].
  destruct (shape_eqb (shape (rainfall st)) (shape (values lat))) eqn:E1;
    [|discriminate].
  destruct (shape_eqb (shape (rainfall st)) (shape (values lon))) eqn:E2;
    [|discriminate].
  intros [= <- <-]. exists mn, mx, un.
  apply shape_eqb_eq in E1, E2. rewrite <- app_assoc.
  repeat split; auto.
Qed.

(** A successful run read backwards. *)
Lemma run_ok (w : World) (c : Config) (t : list event) (g : Globals) :
  run w c = (t, Ok g) ->
  exists lat lon t0 t1 t2 st,
    load_grid w [] = (t0, Ok (lat, lon)) /\
    select w c t0 = (t1, Ok (g_blob_urls g)) /\
    accumulate w (init_acc lat) (g_blob_urls g) t1 = (t2, Ok st) /\
    finish (g_blob_urls g) lat lon st t2 = (t, Ok g).
Proof.
  rewrite run_eq.
  destruct (load_grid w []) as [t0 [[lat lon]|e]]; [|discriminate].
  destruct (select w c t0) as [t1 [urls|e]] eqn:Es; [|discriminate].
  simpl fst. simpl snd.
  destruct (accumulate w (init_acc lat) urls t1) as [t2 [st|e]] eqn:Ea;
    [|discriminate].
  intros H. exists lat, lon, t0, t1, t2, st.
  destruct (finish_ok _ _ _ _ _ _ _ H) as (mn & mx & un & _ & _ & _ & _ & _ & _ & ->).
  simpl. auto.
Qed.

Lemma append_assoc (a b c : string) : a +s b +s c = a +s (b +s c).
Proof. induction a as [|x a IH]; simpl; [reflexivity|now rewrite IH]. Qed.

(** [String.prefix] is "starts with". *)
Lemma prefix_starts_with (p s : string) :
  String.prefix p s = true <-> exists rest, s = p +s rest.
Proof.
  revert s. induction p as [|a p IH]; intros s.
  - split; [intros _; now exists s|intros _; now destruct s].
  - destruct s as [|b s]; simpl.
    + split; [discriminate|intros [rest H]; discriminate H].
    + destruct (Ascii.ascii_dec a b) as [<-|Hne].
      * rewrite IH. split; intros [rest H]; exists rest; congruence.
      * split; [discriminate|intros [rest H]; simpl in H; congruence].
Qed.

End GheFacts.

(** ** The specification's claims, checked on the notebook *)

Module GheSpec.
Import Np NpFacts Ghe GheFacts.

Local Infix "+s" := String.append (at level 50, left associativity).
Local Open Scope string_scope.
Local Open Scope list_scope.

(** In exact arithmetic and without masked cells, one pass of the loop
    body over a sample of the aggregate's shape
    succeeds and adds [max(S[i][j], 0)] to every cell: a negative sample
    value leaves the cell as it was, a non-negative one is added as it
    is. *)
Theorem fold_adds_clamped_sample (w : World) (st : Acc) (u : string)
    (t : list event) (v : variable) (un : string) :
  sample_at w u = Some v ->
  units v = Some un ->
  wf (rainfall st) ->
  wf (values v) ->
  shape (values v) = shape (rainfall st) ->
  exists st',
    fold_sample w st u t = (t ++ [Download u], Ok st') /\
    shape (rainfall st') = shape (rainfall st) /\
    forall i j,
      (i < nrows (rainfall st))%nat -> (j < ncols (rainfall st))%nat ->
      get (rainfall st') i j
      = get (rainfall st) i j + Z.max (get (values v) i j) 0 /\
      (get (values v) i j < 0 ->
       get (rainfall st') i j = get (rainfall st) i j) /\
      (0 <= get (values v) i j ->
       get (rainfall st') i j = get (rainfall st) i j + get (values v) i j).
Proof.
  intros Hv Hun Hwf Hvwf Hs.
  assert (Hms : shape (rainfall st) = shape (mask_negative (values v)))
    by (rewrite shape_mask_negative; congruence).
  pose proof (wf_mask_negative _ Hvwf) as Hmwf.
  rewrite fold_sample_eq. unfold sample_at in Hv.
  destruct (http_get w u) as [[|d]|]; try discriminate.
  rewrite Hv, Hun, (add_same_shape _ _ Hwf Hmwf Hms).
  eexists. split; [reflexivity|]. simpl rainfall.
  split; [now apply shape_add_cells|].
  intros i j Hi Hj.
  assert (E : get (add_cells (rainfall st) (mask_negative (values v))) i j
              = get (rainfall st) i j + Z.max (get (values v) i j) 0).
  { rewrite get_add_cells by assumption. now rewrite get_mask_negative. }
  rewrite E. repeat split; intros; lia.
Qed.

Lemma fold_adds_clamped_sample_witness :
  sample_at world_two url_a
    = Some {| values := arr 2 [[1; -1]; [0; 2]]; units := Some "mm" |} /\
  exists st',
    fold_sample world_two (init_acc lat22) url_a []
      = ([] ++ [Download url_a], Ok st') /\
    get (rainfall st') 0 1 = 0 /\ get (rainfall st') 1 1 = 2.
Proof.
  split; [reflexivity|].
  destruct (fold_adds_clamped_sample world_two (init_acc lat22) url_a []
              {| values := arr 2 [[1; -1]; [0; 2]]; units := Some "mm" |}
              "mm")
    as (st' & Hf & _ & Hcells).
  - reflexivity.
  - reflexivity.
  - apply wfb_wf. reflexivity.
  - apply wfb_wf. reflexivity.
  - reflexivity.
  - exists st'. split; [exact Hf|].
    split.
    + destruct (Hcells 0%nat 1%nat) as (_ & H & _);
        [vm_compute; lia|vm_compute; lia|]. apply H. reflexivity.
    + destruct (Hcells 1%nat 1%nat) as (_ & _ & H);
        [vm_compute; lia|vm_compute; lia|]. apply H. discriminate.
Defined.

(** C2.  Folding [[1,-1],[0,2]] and then [[3,4],[-1,-1]] over the (2,2)
    grid: the run succeeds and its aggregate is [[4,4],[0,2]]; the cell
    (0,1) holds 0 + 4, the sentinel -1 counting as zero. *)
Theorem two_samples_aggregate :
  exists t g,
    run world_two notebook_config = (t, Ok g) /\
    g_blob_urls g = [url_a; url_b] /\
    g_rainfall_raw g = arr 2 [[4; 4]; [0; 2]].
Proof.
  do 2 eexists. split; [vm_compute; reflexivity|]. split; reflexivity.
Qed.

(** The run of C2 does not end with the aggregate [[4,3],[0,2]]. *)
Lemma two_samples_aggregate_not_4302 :
  ~ (exists t g,
       run world_two notebook_config = (t, Ok g) /\
       g_rainfall_raw g = arr 2 [[4; 3]; [0; 2]]).
Proof.
  intros (t & g & Hrun & Hagg).
  vm_compute in Hrun. injection Hrun as _ <-. discriminate Hagg.
Qed.

(** Whatever the other samples are, a selected sample with an axis whose
    extent is neither 1 nor the latitude grid's extent on that axis makes
    the run fail: the addition refuses the operands, or the aggregate
    no longer has the grid's shape at the assertions.  (An axis of
    extent 1 is broadcast by the addition.) *)
Theorem unfit_sample_aborts_run (w : World) (c : Config)
    (lat lon : variable) (t0 t1 : list event) (urls : list string)
    (u : string) (v : variable) :
  load_grid w [] = (t0, Ok (lat, lon)) ->
  select w c t0 = (t1, Ok urls) ->
  In u urls ->
  sample_at w u = Some v ->
  ~ (fits (nrows (values v)) (nrows (values lat)) /\
     fits (ncols (values v)) (ncols (values lat))) ->
  exists t e, run w c = (t, Raise e).
Proof.
  intros Hload Hsel Hin Hv Hunfit.
  destruct (run w c) as [t [g|e]] eqn:Hrun; [exfalso|now exists t, e].
  apply run_ok in Hrun
    as (lat' & lon' & t0' & t1' & t2 & st & Hload' & Hsel' & Hacc & Hfin).
  rewrite Hload in Hload'. injection Hload' as <- <- <-.
  rewrite Hsel in Hsel'. injection Hsel' as <- Hurls.
  rewrite <- Hurls in Hacc.
  apply finish_ok in Hfin as (_ & _ & _ & _ & _ & _ & Hshape & _).
  apply accumulate_fits in Hacc as [_ Hall].
  specialize (Hall u v Hin Hv).
  unfold shape in Hshape. injection Hshape as Hr Hc.
  rewrite Hr, Hc in Hall. exact (Hunfit Hall).
Qed.

Lemma unfit_sample_aborts_run_witness :
  sample_at world_tall url_a
    = Some {| values := arr 2 [[1; 2]; [3; 4]; [5; 6]];
              units := Some "mm" |} /\
  exists t e, run world_tall notebook_config = (t, Raise e).
Proof.
  split; [reflexivity|].
  eapply (unfit_sample_aborts_run world_tall notebook_config lat22 lon22
            _ _ [url_a] url_a
            {| values := arr 2 [[1; 2]; [3; 4]; [5; 6]];
               units := Some "mm" |}).
  - vm_compute. reflexivity.
  - vm_compute. reflexivity.
  - left. reflexivity.
  - reflexivity.
  - vm_compute. intros [[H|H] _]; discriminate H.
Defined.

(** C4.  With no blob under the selected day the listing succeeds and
    the loop leaves the all-zero (2,2) aggregate, without any error;
    the run then stops at the range message with [NameError], the name
    [rain_units] never having been bound. *)
Theorem empty_listing_run :
  (exists t0 t1,
     load_grid world_none [] = (t0, Ok (lat22, lon22)) /\
     select world_none notebook_config t0 = (t1, Ok []) /\
     accumulate world_none (init_acc lat22) [] t1
     = (t1, Ok {| rainfall := arr 2 [[0; 0]; [0; 0]];
                  variable_description := None;
                  rain_units := None |})) /\
  snd (run world_none notebook_config) = Raise NameError.
Proof.
  split; [|vm_compute; reflexivity].
  do 2 eexists. split; [vm_compute; reflexivity|].
  split; vm_compute; reflexivity.
Qed.

(** C5.  Over samples of the grid's shape the loop succeeds on every
    ordering of the same URLs, and the aggregates it ends with are
    equal. *)
Theorem fold_order_irrelevant (w : World) (lat : variable)
    (urls1 urls2 : list string) (t1 t2 : list event) :
  Permutation urls1 urls2 ->
  Forall (good_sample w (shape (values lat))) urls1 ->
  exists st1 st2,
    accumulate w (init_acc lat) urls1 t1
      = (t1 ++ map Download urls1, Ok st1) /\
    accumulate w (init_acc lat) urls2 t2
      = (t2 ++ map Download urls2, Ok st2) /\
    rainfall st1 = rainfall st2.
Proof.
  intros Hperm Hgood1.
  assert (Hgood2 : Forall (good_sample w (shape (values lat))) urls2).
  { rewrite Forall_forall in *. intros u Hu. apply Hgood1.
    eapply Permutation_in; [apply Permutation_sym|]; eassumption. }
  assert (Hwf : wf (rainfall (init_acc lat))) by apply wf_zeros.
  assert (Hs : shape (rainfall (init_acc lat)) = shape (values lat))
    by apply shape_zeros.
  destruct (accumulate_good w _ urls1 Hgood1 _ t1 Hwf Hs)
    as (st1 & H1 & R1 & _).
  destruct (accumulate_good w _ urls2 Hgood2 _ t2 Hwf Hs)
    as (st2 & H2 & R2 & _).
  exists st1, st2. repeat split; try assumption.
  rewrite R1, R2. apply fold_left_perm; [|assumption].
  intros a x y. apply add_cells_right_comm.
Qed.

Lemma fold_order_irrelevant_witness :
  exists st1 st2,
    accumulate world_two (init_acc lat22) [url_a; url_b] []
      = ([] ++ map Download [url_a; url_b], Ok st1) /\
    accumulate world_two (init_acc lat22) [url_b; url_a] []
      = ([] ++ map Download [url_b; url_a], Ok st2) /\
    rainfall st1 = rainfall st2.
Proof.
  apply (fold_order_irrelevant world_two lat22 [url_a; url_b]
           [url_b; url_a] [] []).
  - apply perm_swap.
  - repeat constructor.
    + exists {| values := arr 2 [[1; -1]; [0; 2]]; units := Some "mm" |}, "mm".
      repeat split. apply wfb_wf. reflexivity.
    + exists {| values := arr 2 [[3; 4]; [-1; -1]]; units := Some "mm" |}, "mm".
      repeat split. apply wfb_wf. reflexivity.
Defined.

(** C6.  In single-time mode the selection is the one key
    root/product/year/month/day/NPR.GEO.GHE.v1.S<year><month><day><time>.nc.gz,
    and nothing is asked of the store; in full-day mode it is one listing
    call and the URLs, in enumeration order, of exactly the blobs whose
    name starts with product/year/month/day. *)
Theorem select_modes (w : World) (c : Config) (t : list event) :
  (single_time_point c = true ->
   exists key,
     select w c t = (t, Ok [key]) /\
     key = ghe_blob_root +s
             (day_prefix c +s
                ("/NPR.GEO.GHE.v1.S" +s
                   (syear c +s (smonth c +s (sday c +s
                      (stime c +s ".nc.gz"))))))) /\
  (single_time_point c = false ->
   forall names, container w = Some names ->
   exists urls,
     select w c t
     = (t ++ [Print (MsgFinding (day_prefix c)); ListBlobs (day_prefix c);
              Print (MsgFound (length urls))],
        Ok urls) /\
     urls = map (fun name => ghe_blob_root +s name)
              (filter (String.prefix (day_prefix c)) names) /\
     forall url,
       In url urls <->
       exists rest,
         In (day_prefix c +s rest) names /\
         url = ghe_blob_root +s (day_prefix c +s rest)).
Proof.
  split.
  - intros Hmode. eexists. unfold select. rewrite Hmode.
    split; [reflexivity|]. unfold day_prefix.
    rewrite !append_assoc. reflexivity.
  - intros Hmode names Hnames. eexists. unfold select. rewrite Hmode.
    unfold_cmd. rewrite Hnames. fold (day_prefix c).
    rewrite <- !app_assoc. split; [reflexivity|].
    split; [reflexivity|].
    intros url. rewrite in_map_iff. split.
    + intros (name & <- & Hin). apply filter_In in Hin as [Hin Hp].
      apply prefix_starts_with in Hp as [rest ->]. now exists rest.
    + intros (rest & Hin & ->). exists (day_prefix c +s rest).
      split; [reflexivity|]. apply filter_In. split; [assumption|].
      apply prefix_starts_with. now exists rest.
Qed.

Lemma select_modes_witness :
  (exists key,
     select world_two
       {| product := "rain_rate"; syear := "2020"; smonth := "04";
          sday := "09"; single_time_point := true; stime := "0200" |} []
     = ([], Ok [key]) /\
     key = "https://ghe.blob.core.windows.net/noaa-ghe/rain_rate/2020/04/09/NPR.GEO.GHE.v1.S202004090200.nc.gz") /\
  (exists urls,
     select world_two notebook_config []
     = ([] ++ [Print (MsgFinding "rain_rate/2020/04/09");
               ListBlobs "rain_rate/2020/04/09";
               Print (MsgFound (length urls))],
        Ok urls) /\
     urls = [url_a; url_b]).
Proof.
  split.
  - destruct (proj1 (select_modes world_two
                       {| product := "rain_rate"; syear := "2020";
                          smonth := "04"; sday := "09";
                          single_time_point := true; stime := "0200" |} [])
                eq_refl) as (key & Hsel & Hkey).
    exists key. split; [exact Hsel|]. rewrite Hkey. reflexivity.
  - destruct (proj2 (select_modes world_two notebook_config []) eq_refl
                _ eq_refl) as (urls & Hsel & Hurls & _).
    exists urls. split; [exact Hsel|]. rewrite Hurls. reflexivity.
Defined.

(** C7.  When the download or the decoding of a selected sample fails
    (the URL is unreachable, the bytes are not a gzipped netCDF file, the
    file has no [rain] variable, or the variable no [units]), the run
    ends there with that error and no globals: after the selection the
    trace holds the downloads of the samples before it and one download
    of the failing sample, and nothing of the samples after it. *)
Theorem failed_sample_aborts_run (w : World) (c : Config)
    (grid : variable * variable) (t0 t1 t2 : list event)
    (pre post : list string) (u : string) (st : Acc) (e : exn) :
  load_grid w [] = (t0, Ok grid) ->
  select w c t0 = (t1, Ok (pre ++ u :: post)) ->
  accumulate w (init_acc (fst grid)) pre t1 = (t2, Ok st) ->
  (http_get w u = None /\ e = FetchError) \/
  (http_get w u = Some Garbage /\ e = FormatError) \/
  (exists d, http_get w u = Some (GzNetcdf d) /\
             lookup "rain" d = None /\ e = IndexError) \/
  (exists d v, http_get w u = Some (GzNetcdf d) /\
               lookup "rain" d = Some v /\ units v = None /\
               e = AttributeError) ->
  run w c = (t1 ++ map Download pre ++ [Download u], Raise e).
Proof.
  intros Hload Hsel Hacc Hfail.
  rewrite run_eq, Hload, Hsel, accumulate_app, Hacc, accumulate_cons.
  rewrite fold_sample_eq.
  apply accumulate_trace in Hacc. subst t2. rewrite <- app_assoc.
  destruct Hfail
    as [[-> ->]|[[-> ->]|[(d & -> & Hl & ->)|(d & v & -> & Hl & Hu & ->)]]].
  - reflexivity.
  - reflexivity.
  - now rewrite Hl.
  - now rewrite Hl, Hu.
Qed.

Lemma failed_sample_aborts_run_witness :
  http_get world_corrupt url_a = Some Garbage /\
  run world_corrupt notebook_config
  = ([Download grid_file_url;
      Print (MsgVariables [("latitude", lat22); ("longitude", lon22)]);
      Print (MsgFinding "rain_rate/2020/04/09");
      ListBlobs "rain_rate/2020/04/09";
      Print (MsgFound 2)]
     ++ map Download [] ++ [Download url_a],
     Raise FormatError).
Proof.
  split; [reflexivity|].
  eapply (failed_sample_aborts_run world_corrupt notebook_config
            (lat22, lon22) _ _ _ [] [url_b] url_a).
  - vm_compute. reflexivity.
  - vm_compute. reflexivity.
  - reflexivity.
  - right. left. split; reflexivity.
Defined.



(** C9.  In a successful run over at least one sample, the units in the
    range message and left for the plot's title are the [units]
    attribute of the last selected sample. *)
Theorem units_are_the_last_samples (w : World) (c : Config)
    (t : list event) (g : Globals) :
  run w c = (t, Ok g) ->
  g_blob_urls g <> [] ->
  exists v,
    sample_at w (last (g_blob_urls g) "") = Some v /\
    units v = Some (g_rain_units g) /\
    In (Print (MsgRange (g_min_rf g) (g_rain_units g) (g_max_rf g))) t.
Proof.
  intros Hrun Hne.
  apply run_ok in Hrun as (lat & lon & t0 & t1 & t2 & st & _ & _ & Hacc & Hfin).
  rewrite (app_removelast_last "" Hne) in Hacc.
  apply accumulate_units in Hacc as (v & un & Hv & Hun & Hru).
  apply finish_ok in Hfin as (mn & mx & un' & _ & _ & Hru' & _ & _ & -> & Hg).
  rewrite Hru in Hru'. injection Hru' as <-.
  exists v. rewrite Hg in *. simpl in *.
  repeat split; try assumption.
  apply in_or_app. right. left. reflexivity.
Qed.

Lemma units_are_the_last_samples_witness :
  exists t g,
    run world_units notebook_config = (t, Ok g) /\
    g_blob_urls g = [url_a; url_b] /\
    sample_at world_units url_a
      = Some {| values := arr 2 [[1; -1]; [0; 2]]; units := Some "mm" |} /\
    sample_at world_units url_b
      = Some {| values := arr 2 [[3; 4]; [-1; -1]]; units := Some "inch" |} /\
    g_rain_units g = "inch" /\
    exists v,
      sample_at world_units (last (g_blob_urls g) "") = Some v /\
      units v = Some (g_rain_units g) /\
      In (Print (MsgRange (g_min_rf g) (g_rain_units g) (g_max_rf g))) t.
Proof.
  do 2 eexists. split; [vm_compute; reflexivity|].
  do 4 (split; [reflexivity|]).
  eapply (units_are_the_last_samples world_units notebook_config).
  - vm_compute. reflexivity.
  - discriminate.
Defined.

(** C10.  The downsampling keeps the aggregate and the raw grids as they
    are, and where it succeeds every cell (i, j) of the downsampled
    rainfall, latitude and longitude is the cell (10 i, 10 j) of the raw
    array, which exists. *)
Theorem downsampling_is_decimation (blob_urls : list string)
    (lat lon : variable) (st : Acc) (t t' : list event) (g : Globals) :
  finish blob_urls lat lon st t = (t', Ok g) ->
  (g_rainfall_raw g = rainfall st /\
   g_lat_grid_raw g = lat /\ g_lon_grid_raw g = lon) /\
  (shape (g_lat_grid g) = shape (g_rainfall g) /\
   shape (g_lon_grid g) = shape (g_rainfall g)) /\
  forall i j,
    (i < nrows (g_rainfall g))%nat -> (j < ncols (g_rainfall g))%nat ->
    ((10 * i < nrows (g_rainfall_raw g))%nat /\
     (10 * j < ncols (g_rainfall_raw g))%nat) /\
    get (g_rainfall g) i j = get (g_rainfall_raw g) (10 * i) (10 * j) /\
    get (g_lat_grid g) i j
    = get (values (g_lat_grid_raw g)) (10 * i) (10 * j) /\
    get (g_lon_grid g) i j
    = get (values (g_lon_grid_raw g)) (10 * i) (10 * j).
Proof.
  intros Hfin.
  apply finish_ok in Hfin
    as (mn & mx & un & _ & _ & _ & Hlat & Hlon & _ & ->).
  simpl.
  assert (Hk : (1 <= ds_factor)%nat) by (unfold ds_factor; lia).
  assert (Hsh : forall a b, shape a = shape b ->
            shape (decimate ds_factor a) = shape (decimate ds_factor b)).
  { intros a b [= Hr Hc]. unfold shape.
    rewrite !nrows_decimate by assumption. simpl. now rewrite Hr, Hc. }
  split; [auto|]. split; [split; symmetry; apply Hsh; assumption|].
  intros i j Hi Hj.
  rewrite nrows_decimate in Hi by assumption.
  apply (slice_len_lt ds_factor _ _ Hk) in Hi.
  simpl in Hj. apply (slice_len_lt ds_factor _ _ Hk) in Hj.
  split; [split; assumption|].
  rewrite !get_decimate by assumption. auto.
Qed.

Lemma downsampling_is_decimation_witness :
  exists t g,
    finish [url_a] lat_strip lon_strip acc_strip [] = (t, Ok g) /\
    g_rainfall g = arr 2 [[0; 9]] /\
    g_lon_grid g = arr 2 [[0; 10]] /\
    g_rainfall_raw g = rainfall acc_strip /\
    get (g_rainfall g) 0 1 = get (g_rainfall_raw g) (10 * 0) (10 * 1).
Proof.
  do 2 eexists. split; [vm_compute; reflexivity|].
  do 2 (split; [reflexivity|]).
  destruct (downsampling_is_decimation [url_a] lat_strip lon_strip
              acc_strip [] _ _ eq_refl) as ((Hraw & _) & _ & Hcells).
  split; [exact Hraw|].
  destruct (Hcells 0%nat 1%nat) as (_ & H & _);
    [vm_compute; lia|vm_compute; lia|exact H].
Defined.

End GheSpec.

(** ** The temporary files: facts *)

Module GheFilesFacts.
Import Ghe GheFacts GheFiles.

Local Infix "+s" := String.append (at level 50, left associativity).
Local Open Scope string_scope.
Local Open Scope list_scope.

Example replace_without_overlap : replace "aa" "b" "aaaxaaaa" = "baxbb".
Proof. reflexivity. Qed.

Example grid_file_name :
  url_as_filename grid_file_url
  = "https_ghe.blob.core.windows.net_noaa-ghe_NPR.GEO.GHE.v1.Navigation.netcdf.gz".
Proof. reflexivity. Qed.

Lemma prefix_empty (s : string) : String.prefix "" s = true.
Proof. now destruct s. Qed.

Lemma prefix_cons (a b : ascii) (s1 s2 : string) :
  String.prefix (String a s1) (String b s2)
  = if Ascii.ascii_dec a b then String.prefix s1 s2 else false.
Proof. reflexivity. Qed.

Lemma contains_char_append (c : ascii) (a b : string) :
  contains_char c (a +s b) = contains_char c a || contains_char c b.
Proof.
  induction a as [|x a IH]; simpl; [reflexivity|].
  now rewrite IH, orb_assoc.
Qed.

(** Replacing a character by a string without it leaves none. *)
Lemma replace_char_absent (c : ascii) (new s : string) :
  contains_char c new = false ->
  contains_char c (replace (String c "") new s) = false.
Proof.
  intros Hnew. unfold replace.
  induction s as [|x t IH]; [reflexivity|].
  cbn [replace_from String.length Nat.pred]. rewrite prefix_cons.
  destruct (Ascii.ascii_dec c x) as [<-|Hne].
  - rewrite prefix_empty, contains_char_append, Hnew, IH. reflexivity.
  - simpl. rewrite IH, orb_false_r.
    apply Ascii.eqb_neq. congruence.
Qed.

Lemma no_slash_no_prefix (s : string) :
  contains_char "/" s = false -> String.prefix "/" s = false.
Proof.
  destruct s as [|x t]; [reflexivity|].
  cbn [contains_char]. rewrite prefix_cons.
  intros H. apply orb_false_iff in H as [H _].
  apply Ascii.eqb_neq in H.
  destruct (Ascii.ascii_dec "/" x); [congruence|reflexivity].
Qed.

Lemma ends_with_char_append (c : ascii) (a b : string) :
  b <> "" -> ends_with_char c (a +s b) = ends_with_char c b.
Proof.
  intros Hb. induction a as [|x a IH]; [reflexivity|].
  simpl. destruct (a +s b) eqn:E; [|exact IH].
  destruct a; simpl in E; [contradiction|discriminate].
Qed.

Lemma append_nonempty (a b : string) : b <> "" -> a +s b <> "".
Proof. intros Hb. destruct a; simpl; [assumption|discriminate]. Qed.

(** The temporary directory is one of these two, and so neither empty
    nor ending with a slash. *)
Lemma temp_dir_cases (tmp : string) :
  temp_dir tmp = tmp +s "ghe" \/ temp_dir tmp = tmp +s "/" +s "ghe".
Proof.
  unfold temp_dir, path_join. simpl String.prefix.
  destruct (String.eqb tmp "" || ends_with_char "/" tmp); auto.
Qed.

Lemma temp_dir_tail (tmp : string) :
  String.eqb (temp_dir tmp) "" = false /\
  ends_with_char "/" (temp_dir tmp) = false.
Proof.
  split.
  - apply String.eqb_neq.
    destruct (temp_dir_cases tmp) as [-> | ->];
      apply append_nonempty; discriminate.
  - destruct (temp_dir_cases tmp) as [-> | ->];
      rewrite ends_with_char_append by discriminate; reflexivity.
Qed.

Lemma url_as_filename_no_slash_aux (url : string) :
  contains_char "/" (url_as_filename url) = false.
Proof. unfold url_as_filename. now apply replace_char_absent. Qed.

Lemma destination_under (tmp url : string) :
  under (temp_dir tmp) (destination_filename tmp url) = true.
Proof.
  unfold under, destination_filename, path_join at 1.
  rewrite (no_slash_no_prefix _ (url_as_filename_no_slash_aux url)).
  destruct (temp_dir_tail tmp) as [-> ->]. simpl orb. cbv iota.
  apply prefix_starts_with. now exists (url_as_filename url).
Qed.

Lemma write_file_outside (dir path q : string) (fs : files) (p : payload) :
  under dir path = true ->
  rmtree dir (write_file fs path p) q = rmtree dir fs q.
Proof.
  intros Hu. unfold rmtree, write_file.
  destruct (under dir q) eqn:Eq; [reflexivity|].
  destruct (String.eqb_spec q path) as [->|]; [congruence|reflexivity].
Qed.

End GheFilesFacts.

(** ** More facts about arrays and cells *)

Module GheMoreFacts.
Import Np NpFacts Ghe GheFacts.

Local Open Scope list_scope.

Lemma nth_map_map {A B : Type} (h : A -> B) (l : list (list A))
    (i j : nat) (d0 : A) (d : B) :
  (i < length l)%nat -> (j < length (nth i l []))%nat ->
  nth j (nth i (map (map h) l) []) d = h (nth j (nth i l []) d0).
Proof.
  intros Hi Hj.
  change (@nil B) with (map h (@nil A)). rewrite map_nth.
  rewrite (nth_indep _ d (h d0)) by (now rewrite length_map).
  apply map_nth.
Qed.

Lemma get_zeros (s : nat * nat) (i j : nat) : get (zeros s) i j = 0.
Proof.
  unfold get, zeros. cbn [rows].
  destruct (Nat.lt_ge_cases i (fst s)) as [Hi|Hi].
  - rewrite (nth_indep _ [] (repeat 0 (snd s)))
      by (now rewrite repeat_length).
    rewrite nth_repeat.
    destruct (Nat.lt_ge_cases j (snd s)) as [Hj|Hj].
    + apply nth_repeat.
    + apply nth_overflow. now rewrite repeat_length.
  - rewrite (nth_overflow (repeat _ _)) by (now rewrite repeat_length).
    now destruct j.
Qed.

(** The least and the greatest of a non-empty list, by [fold_left]. *)
Lemma fold_left_min (l : list Z) (x : Z) :
  In (fold_left Z.min l x) (x :: l) /\
  forall y, In y (x :: l) -> fold_left Z.min l x <= y.
Proof.
  revert x. induction l as [|a l IH]; intros x; simpl.
  - split; [now left|]. intros y [<-|[]]. lia.
  - destruct (IH (Z.min x a)) as [Hin Hle]. split.
    + destruct Hin as [E|Hin]; [|now right; right].
      rewrite <- E. destruct (Z.min_spec x a) as [[_ ->]|[_ ->]]; auto.
    + intros y Hy.
      assert (H1 : fold_left Z.min l (Z.min x a) <= Z.min x a)
        by (apply Hle; now left).
      destruct Hy as [<-|[<-|Hy]]; try lia.
      apply Hle. now right.
Qed.

Lemma fold_left_max (l : list Z) (x : Z) :
  In (fold_left Z.max l x) (x :: l) /\
  forall y, In y (x :: l) -> y <= fold_left Z.max l x.
Proof.
  revert x. induction l as [|a l IH]; intros x; simpl.
  - split; [now left|]. intros y [<-|[]]. lia.
  - destruct (IH (Z.max x a)) as [Hin Hle]. split.
    + destruct Hin as [E|Hin]; [|now right; right].
      rewrite <- E. destruct (Z.max_spec x a) as [[_ ->]|[_ ->]]; auto.
    + intros y Hy.
      assert (H1 : Z.max x a <= fold_left Z.max l (Z.max x a))
        by (apply Hle; now left).
      destruct Hy as [<-|[<-|Hy]]; try lia.
      apply Hle. now right.
Qed.

Lemma min_spec (a : ndarray) (m : Z) :
  Np.min a = Some m ->
  In m (concat (rows a)) /\ forall y, In y (concat (rows a)) -> m <= y.
Proof.
  unfold Np.min, reduce. destruct (concat (rows a)) as [|x l]; [discriminate|].
  intros [= <-]. apply fold_left_min.
Qed.

Lemma max_spec (a : ndarray) (m : Z) :
  Np.max a = Some m ->
  In m (concat (rows a)) /\ forall y, In y (concat (rows a)) -> y <= m.
Proof.
  unfold Np.max, reduce. destruct (concat (rows a)) as [|x l]; [discriminate|].
  intros [= <-]. apply fold_left_max.
Qed.



(** The grid cell, outcome by outcome. *)
Lemma load_grid_eq (w : World) (t : list event) :
  load_grid w t =
  match http_get w grid_file_url with
  | None => (t ++ [Download grid_file_url], Raise FetchError)
  | Some Garbage => (t ++ [Download grid_file_url], Raise FormatError)
  | Some (GzNetcdf d) =>
      match lookup "latitude" d, lookup "longitude" d with
      | Some lat, Some lon =>
          (t ++ [Download grid_file_url; Print (MsgVariables d)],
           Ok (lat, lon))
      | _, _ =>
          (t ++ [Download grid_file_url; Print (MsgVariables d)],
           Raise IndexError)
      end
  end.
Proof.
  unfold load_grid. unfold_cmd.
  destruct (http_get w grid_file_url) as [[|d]|]; try reflexivity.
  rewrite <- app_assoc. simpl app.
  destruct (lookup "latitude" d) as [lat|]; [|reflexivity].
  destruct (lookup "longitude" d) as [lon|]; reflexivity.
Qed.

(** The selection cell, outcome by outcome. *)
Lemma select_eq (w : World) (c : Config) (t : list event) :
  select w c t =
  if single_time_point c then
    (t, Ok [String.append ghe_blob_root
              (String.append (day_prefix c)
                 (String.append "/NPR.GEO.GHE.v1.S"
                    (String.append (syear c)
                       (String.append (smonth c)
                          (String.append (sday c)
                             (String.append (stime c) ".nc.gz"))))))])
  else
    match container w with
    | None =>
        (t ++ [Print (MsgFinding (day_prefix c)); ListBlobs (day_prefix c)],
         Raise FetchError)
    | Some names =>
        let urls := map (fun name => String.append ghe_blob_root name)
                      (filter (String.prefix (day_prefix c)) names) in
        (t ++ [Print (MsgFinding (day_prefix c)); ListBlobs (day_prefix c);
               Print (MsgFound (length urls))],
         Ok urls)
    end.
Proof.
  unfold select. destruct (single_time_point c).
  - unfold ret, day_prefix. now rewrite !append_assoc.
  - unfold_cmd. fold (day_prefix c). rewrite <- !app_assoc. simpl app.
    destruct (container w) as [names|]; [|reflexivity].
    rewrite <- app_assoc. reflexivity.
Qed.

(** The loop asks the store for downloads only. *)
Lemma accumulate_ext (w1 w2 : World) :
  (forall url, http_get w1 url = http_get w2 url) ->
  forall urls st t, accumulate w1 st urls t = accumulate w2 st urls t.
Proof.
  intros H. induction urls as [|u urls IH]; intros st t; [reflexivity|].
  rewrite !accumulate_cons, !fold_sample_eq, H.
  destruct (http_get w2 u) as [[|d]|]; try reflexivity.
  destruct (lookup "rain" d) as [v|]; try reflexivity.
  destruct (units v) as [un|]; try reflexivity.
  destruct (add (rainfall st) (mask_negative (values v))); [apply IH|reflexivity].
Qed.

Lemma downloads_of_app (t1 t2 : list event) :
  GheCases.downloads_of (t1 ++ t2)
  = GheCases.downloads_of t1 ++ GheCases.downloads_of t2.
Proof. apply flat_map_app. Qed.

Lemma listings_of_app (t1 t2 : list event) :
  GheCases.listings_of (t1 ++ t2)
  = GheCases.listings_of t1 ++ GheCases.listings_of t2.
Proof. apply flat_map_app. Qed.

Lemma downloads_of_map_Download (urls : list string) :
  GheCases.downloads_of (map Download urls) = urls.
Proof. induction urls as [|u urls IH]; simpl; [|rewrite IH]; reflexivity. Qed.

Lemma listings_of_map_Download (urls : list string) :
  GheCases.listings_of (map Download urls) = [].
Proof. induction urls as [|u urls IH]; simpl; auto. Qed.

(** Whatever its outcome, the loop downloaded a prefix of the URLs, each
    once and in order. *)
Lemma accumulate_trace_any (w : World) (urls : list string) :
  forall (st : Acc) (t t' : list event) (r : result Acc),
    accumulate w st urls t = (t', r) ->
    exists k, t' = t ++ map Download (firstn k urls).
Proof.
  induction urls as [|u urls IH]; intros st t t' r.
  - intros [= <- _]. exists 0%nat. simpl. now rewrite app_nil_r.
  - rewrite accumulate_cons, fold_sample_eq.
    destruct (match http_get w u with
              | Some Garbage => _ | Some (GzNetcdf d) => _ | None => _
              end) as [st1|e].
    + intros H. apply IH in H as [k ->]. exists (S k).
      simpl. now rewrite <- app_assoc.
    + intros [= <- _]. now exists 1%nat.
Qed.

(** The last part only prints. *)
Lemma finish_trace (blob_urls : list string) (lat lon : variable)
    (st : Acc) (t t' : list event) (r : result Globals) :
  finish blob_urls lat lon st t = (t', r) ->
  exists msgs, t' = t ++ map Print msgs.
Proof.
  unfold finish. unfold_cmd.
  destruct (Np.min (rainfall st)) as [mn|];
    [|intros [= <- _]; exists []; simpl; now rewrite app_nil_r].
  destruct (Np.max (rainfall st)) as [mx|];
    [|intros [= <- _]; exists []; simpl; now rewrite app_nil_r].
  destruct (rain_units st) as [un|];
    [|intros [= <- _]; exists []; simpl; now rewrite app_nil_r].
  destruct (shape_eqb (shape (rainfall st)) (shape (values lat)));
    [|intros [= <- _]; rewrite <- app_assoc; now eexists [_; _]].
  destruct (shape_eqb (shape (rainfall st)) (shape (values lon)));
    intros [= <- _]; rewrite <- app_assoc; now eexists [_; _].
Qed.

Lemma downloads_of_map_Print (msgs : list message) :
  GheCases.downloads_of (map Print msgs) = [].
Proof. induction msgs; simpl; auto. Qed.

Lemma listings_of_map_Print (msgs : list message) :
  GheCases.listings_of (map Print msgs) = [].
Proof. induction msgs; simpl; auto. Qed.

(** The cells of the left fold of the cell-wise sum. *)
Lemma get_fold_add_cells (w : World) (s : nat * nat) (urls : list string)
    (i j : nat) :
  Forall (good_sample w s) urls ->
  (i < fst s)%nat -> (j < snd s)%nat ->
  forall a, wf a -> shape a = s ->
    get (fold_left (fun a u => add_cells a (masked_sample w u)) urls a) i j
    = get a i j
      + fold_right Z.add 0
          (map (fun u => match sample_at w u with
                         | Some v => Z.max (get (values v) i j) 0
                         | None => 0
                         end) urls).
Proof.
  intros Hgood Hi Hj.
  induction Hgood as [|u urls Hu _ IH]; intros a Hwf Hs; simpl; [lia|].
  destruct Hu as (v & un & Hv & _ & Hvwf & Hvs).
  assert (Hm : masked_sample w u = mask_negative (values v))
    by (unfold masked_sample; now rewrite Hv).
  assert (Hms : shape a = shape (mask_negative (values v)))
    by (rewrite shape_mask_negative; congruence).
  pose proof (wf_mask_negative _ Hvwf) as Hmwf.
  rewrite Hm, Hv, IH.
  - rewrite get_add_cells, get_mask_negative; try assumption; try lia.
    + rewrite <- Hs in Hi. exact Hi.
    + rewrite <- Hs in Hj. exact Hj.
  - pose proof (add_same_shape _ _ Hwf Hmwf Hms) as Hadd.
    apply (add_spec _ _ _ Hwf Hmwf Hadd).
  - rewrite shape_add_cells; assumption.
Qed.



End GheMoreFacts.

(** ** Further properties of the notebook *)

Module GheExtra.
Import Np NpFacts Ghe GheFacts GheMoreFacts GheFiles GheFilesFacts GhePlot
  GheCases.

Local Infix "+s" := String.append (at level 50, left associativity).
Local Open Scope string_scope.
Local Open Scope list_scope.

(** *** [download_url] and the clean-up cell *)

(** X1.  The file name [download_url] derives from a URL holds no
    slash, whatever the URL. *)
Theorem url_as_filename_no_slash (url : string) :
  contains_char "/" (url_as_filename url) = false.
Proof.
  unfold url_as_filename.
  apply replace_char_absent. reflexivity.
Qed.

(** X2.  The file of a URL is a direct child of the temporary directory
    [<tmp>/ghe]: its path is the directory, one slash and the slash-free
    file name, whatever the system's temporary directory and the URL. *)
Theorem destination_in_temp_dir (tmp url : string) :
  destination_filename tmp url
  = temp_dir tmp +s "/" +s url_as_filename url /\
  under (temp_dir tmp) (destination_filename tmp url) = true /\
  (temp_dir tmp = tmp +s "ghe" \/ temp_dir tmp = tmp +s "/" +s "ghe").
Proof.
  assert (E : destination_filename tmp url
              = temp_dir tmp +s "/" +s url_as_filename url).
  { unfold destination_filename, path_join at 1.
    rewrite (no_slash_no_prefix _ (url_as_filename_no_slash_aux url)).
    destruct (temp_dir_tail tmp) as [-> ->]. reflexivity. }
  split; [exact E|]. split; [|apply temp_dir_cases].
  unfold under. rewrite E. apply prefix_starts_with.
  now exists (url_as_filename url).
Qed.

(** X3.  [download_url] through its file: when it succeeds, the file at
    the path it returns holds what the URL serves, which is what the
    command of the run returns, whatever the directory held before;
    when it fails, the run's command raises the same error.  Either
    way no file but the destination is written or changed. *)
Theorem download_file_round_trip (w : World) (tmp : string)
    (interrupted : string -> option payload) (url : string)
    (fs : files) (t : list event) :
  match download_url_file w tmp interrupted url fs with
  | (fs', Ok filename) =>
      filename = destination_filename tmp url /\
      (exists p,
         fs' filename = Some p /\ http_get w url = Some p /\
         download_url w url t = (t ++ [Download url], Ok p)) /\
      forall q, q <> destination_filename tmp url -> fs' q = fs q
  | (fs', Raise e) =>
      download_url w url t = (t ++ [Download url], Raise e) /\
      forall q, q <> destination_filename tmp url -> fs' q = fs q
  end.
Proof.
  assert (Hw : forall p q, q <> destination_filename tmp url ->
            write_file fs (destination_filename tmp url) p q = fs q).
  { intros p q Hq. unfold write_file.
    destruct (String.eqb_spec q (destination_filename tmp url));
      [contradiction|reflexivity]. }
  unfold download_url_file, urlretrieve, download_url. unfold_cmd.
  destruct (http_get w url) as [p|].
  - split; [reflexivity|]. split; [|apply Hw].
    exists p. unfold write_file. now rewrite String.eqb_refl.
  - split; [reflexivity|].
    destruct (interrupted url) as [p|]; [apply Hw|reflexivity].
Qed.

Lemma download_file_round_trip_witness :
  fst (download_url_file world_two "/tmp" (fun _ => Some Garbage) url_a
         (fun _ => Some Garbage)) "/tmp/ghe/old.nc.gz"
  = Some Garbage /\
  fst (download_url_file world_offline "/tmp" (fun _ => Some Garbage) url_a
         (fun _ => None)) "/tmp/ghe/old.nc.gz"
  = None.
Proof.
  pose proof (download_file_round_trip world_two "/tmp"
                (fun _ => Some Garbage) url_a (fun _ => Some Garbage) [])
    as H1.
  pose proof (download_file_round_trip world_offline "/tmp"
                (fun _ => Some Garbage) url_a (fun _ => None) []) as H2.
  destruct (download_url_file world_two "/tmp" (fun _ => Some Garbage) url_a
              (fun _ => Some Garbage)) as [fs1 [f1|e1]];
    destruct (download_url_file world_offline "/tmp"
                (fun _ => Some Garbage) url_a (fun _ => None))
      as [fs2 [f2|e2]]; cbn [fst].
  - destruct H1 as (_ & _ & H1), H2 as (_ & _ & H2).
    split; [apply H1|apply H2]; discriminate.
  - destruct H1 as (_ & _ & H1), H2 as (_ & H2).
    split; [apply H1|apply H2]; discriminate.
  - destruct H1 as (_ & H1), H2 as (_ & _ & H2).
    split; [apply H1|apply H2]; discriminate.
  - destruct H1 as (_ & H1), H2 as (_ & H2).
    split; [apply H1|apply H2]; discriminate.
Defined.

(** X4.  Removing the temporary directory undoes the downloads: after
    any sequence of downloads, [rmtree] leaves the files it would have
    left without them, none below the directory and every other one as
    it was. *)
Theorem rmtree_undoes_downloads (w : World) (tmp : string)
    (interrupted : string -> option payload)
    (urls : list string) (fs : files) (q : string) :
  rmtree (temp_dir tmp) (downloads w tmp interrupted urls fs) q
  = rmtree (temp_dir tmp) fs q /\
  (under (temp_dir tmp) q = true ->
   rmtree (temp_dir tmp) (downloads w tmp interrupted urls fs) q = None) /\
  (under (temp_dir tmp) q = false ->
   rmtree (temp_dir tmp) (downloads w tmp interrupted urls fs) q = fs q).
Proof.
  assert (E : rmtree (temp_dir tmp) (downloads w tmp interrupted urls fs) q
              = rmtree (temp_dir tmp) fs q).
  { revert fs. induction urls as [|u urls IH]; intros fs; [reflexivity|].
    cbn [downloads]. unfold download_url_file, urlretrieve.
    destruct (http_get w u) as [p|].
    - rewrite IH. apply write_file_outside.
      apply (destination_under tmp u).
    - destruct (interrupted u) as [p|]; [|reflexivity].
      apply write_file_outside. apply (destination_under tmp u). }
  split; [exact E|]. rewrite E. unfold rmtree.
  split; intros ->; reflexivity.
Qed.

Lemma rmtree_undoes_downloads_witness :
  under (temp_dir "/tmp") "/tmp/ghe/old.nc.gz" = true /\
  under (temp_dir "/tmp") "/tmp/ghetto" = false /\
  rmtree (temp_dir "/tmp")
    (downloads world_two "/tmp" (fun _ => Some Garbage)
       [grid_file_url; url_a; url_b; "gone"]
       (fun _ => Some Garbage)) "/tmp/ghe/old.nc.gz" = None /\
  rmtree (temp_dir "/tmp")
    (downloads world_two "/tmp" (fun _ => Some Garbage)
       [grid_file_url; url_a; url_b; "gone"]
       (fun _ => Some Garbage)) "/tmp/ghetto" = Some Garbage.
Proof.
  destruct (rmtree_undoes_downloads world_two "/tmp" (fun _ => Some Garbage)
              [grid_file_url; url_a; url_b; "gone"] (fun _ => Some Garbage)
              "/tmp/ghe/old.nc.gz") as (_ & H1 & _).
  destruct (rmtree_undoes_downloads world_two "/tmp" (fun _ => Some Garbage)
              [grid_file_url; url_a; url_b; "gone"] (fun _ => Some Garbage)
              "/tmp/ghetto") as (_ & _ & H2).
  split; [reflexivity|]. split; [reflexivity|].
  split; [apply H1; reflexivity|apply H2; reflexivity].
Defined.

(** *** The plotting cell's values *)

(** X5.  The array handed to the colour mesh, over [n] files: a cell
    [v] of the downsampled rainfall is first clipped to [10 n]; it is
    masked when the clipped value is below [n/100] and kept otherwise,
    so a kept value lies between [n/100] and [10 n] and, over at least
    one file, is positive. *)
Theorem plot_values_cell (blob_urls : list string) (a : ndarray)
    (i j : nat) :
  (i < nrows a)%nat ->
  (j < length (nth i (rows a) []))%nat ->
  let n := Z.of_nat (length blob_urls) in
  let c := Z.min (get a i j) (10 * n) in
  m_get (plot_values blob_urls a) i j
  = (if (100 * c <? n)%Z then None else Some c) /\
  forall x, m_get (plot_values blob_urls a) i j = Some x ->
    n <= 100 * x /\ x <= 10 * n /\ (1 <= n -> 0 < x).
Proof.
  intros Hi Hj n c.
  assert (E : m_get (plot_values blob_urls a) i j
              = if (100 * c <? n)%Z then None else Some c).
  { unfold m_get, plot_values, mask_lower, clip_upper. cbn [m_rows rows].
    rewrite map_map.
    rewrite (map_ext _ _ (fun r => map_map _ _ r)).
    rewrite (nth_map_map _ _ _ _ 0) by assumption.
    fold (get a i j). fold n.
    unfold upper_plot_threshold, lower_plot_threshold, Qltb.
    unfold QArith_base.Qle_bool. cbn [QArith_base.Qmult QArith_base.inject_Z
      QArith_base.Qnum QArith_base.Qden]. fold n. subst c.
    change (Z.pos (1 * 100)) with 100.
    destruct (Z.gtb_spec (get a i j) (n * 10));
      [rewrite Z.min_r by lia|rewrite Z.min_l by lia];
      match goal with
      | |- context [(?x <=? ?y)%Z] => destruct (Z.leb_spec x y)
      end;
      match goal with
      | |- context [(?x <? ?y)%Z] => destruct (Z.ltb_spec x y)
      end;
      cbn [negb]; try lia; try reflexivity; f_equal; lia. }
  split; [exact E|]. intros x Hx. rewrite E in Hx.
  destruct (Z.ltb_spec (100 * c) n); [discriminate|].
  injection Hx as <-. subst c. lia.
Qed.

Lemma plot_values_cell_witness :
  m_get (plot_values [url_a; url_b] (arr 4 [[0; 1; 20; 21]])) 0 0 = None /\
  m_get (plot_values [url_a; url_b] (arr 4 [[0; 1; 20; 21]])) 0 1 = Some 1 /\
  m_get (plot_values [url_a; url_b] (arr 4 [[0; 1; 20; 21]])) 0 3 = Some 20.
Proof.
  assert (H : forall j, (j < 4)%nat ->
            m_get (plot_values [url_a; url_b] (arr 4 [[0; 1; 20; 21]])) 0 j
            = (if (100 * Z.min (get (arr 4 [[0; 1; 20; 21]]) 0 j) (10 * 2)
                   <? 2)%Z
               then None
               else Some (Z.min (get (arr 4 [[0; 1; 20; 21]]) 0 j) (10 * 2)))).
  { intros j Hj.
    apply (plot_values_cell [url_a; url_b] (arr 4 [[0; 1; 20; 21]]) 0 j).
    - vm_compute. lia.
    - exact Hj. }
  split; [|split].
  - rewrite (H 0%nat) by lia. reflexivity.
  - rewrite (H 1%nat) by lia. reflexivity.
  - rewrite (H 3%nat) by lia. reflexivity.
Defined.

(** *** Failures before the loop *)

(** X6.  A grid file that cannot be downloaded, is not a gzipped netCDF
    file, or lacks [latitude] or [longitude] ends the run at the grid
    cell: nothing is listed and no sample is downloaded. *)
Theorem grid_failure_aborts_run (w : World) (c : Config) :
  (http_get w grid_file_url = None ->
   run w c = ([Download grid_file_url], Raise FetchError)) /\
  (http_get w grid_file_url = Some Garbage ->
   run w c = ([Download grid_file_url], Raise FormatError)) /\
  (forall d,
     http_get w grid_file_url = Some (GzNetcdf d) ->
     lookup "latitude" d = None \/ lookup "longitude" d = None ->
     run w c = ([Download grid_file_url; Print (MsgVariables d)],
                Raise IndexError)).
Proof.
  rewrite run_eq, load_grid_eq. repeat split.
  - now intros ->.
  - now intros ->.
  - intros d -> [H|H]; rewrite H; [reflexivity|].
    now destruct (lookup "latitude" d).
Qed.

Lemma grid_failure_aborts_run_witness :
  run world_offline notebook_config
    = ([Download grid_file_url], Raise FetchError) /\
  run world_nolat notebook_config
    = ([Download grid_file_url;
        Print (MsgVariables [("longitude", lon22)])],
       Raise IndexError).
Proof.
  split.
  - apply (proj1 (grid_failure_aborts_run world_offline notebook_config)).
    reflexivity.
  - apply (proj2 (proj2 (grid_failure_aborts_run world_nolat
                           notebook_config))
             [("longitude", lon22)]).
    + reflexivity.
    + left. reflexivity.
Defined.

(** X7.  In full-day mode a failing listing ends the run with that
    error right after the listing call; only the grid file has been
    downloaded. *)
Theorem listing_failure_aborts_run (w : World) (c : Config)
    (t0 : list event) (grid : variable * variable) :
  single_time_point c = false ->
  container w = None ->
  load_grid w [] = (t0, Ok grid) ->
  run w c
  = (t0 ++ [Print (MsgFinding (day_prefix c)); ListBlobs (day_prefix c)],
     Raise FetchError) /\
  downloads_of (fst (run w c)) = [grid_file_url].
Proof.
  intros Hmode Hc Hload.
  assert (E : run w c
              = (t0 ++ [Print (MsgFinding (day_prefix c));
                        ListBlobs (day_prefix c)],
                 Raise FetchError)).
  { now rewrite run_eq, Hload, select_eq, Hmode, Hc. }
  split; [exact E|]. rewrite E. cbn [fst].
  rewrite load_grid_eq in Hload.
  destruct (http_get w grid_file_url) as [[|d]|]; try discriminate.
  destruct (lookup "latitude" d), (lookup "longitude" d); try discriminate.
  injection Hload as <- _. reflexivity.
Qed.

Lemma listing_failure_aborts_run_witness :
  run world_nolist notebook_config
  = ([Download grid_file_url;
      Print (MsgVariables [("latitude", lat22); ("longitude", lon22)])]
     ++ [Print (MsgFinding (day_prefix notebook_config));
         ListBlobs (day_prefix notebook_config)],
     Raise FetchError) /\
  downloads_of (fst (run world_nolist notebook_config)) = [grid_file_url].
Proof.
  apply (listing_failure_aborts_run world_nolist notebook_config _
           (lat22, lon22)); reflexivity.
Defined.

(** X8.  In single-time mode the run never lists the container: its
    trace holds no listing call, and the run is the same on any store
    that serves the same URLs, also one whose listing fails. *)
Theorem single_time_ignores_listing (w1 w2 : World) (c : Config) :
  single_time_point c = true ->
  (forall url, http_get w1 url = http_get w2 url) ->
  run w1 c = run w2 c /\ listings_of (fst (run w1 c)) = [].
Proof.
  intros Hmode Hget. split.
  - rewrite !run_eq, !load_grid_eq, Hget.
    destruct (http_get w2 grid_file_url) as [[|d]|]; try reflexivity.
    destruct (lookup "latitude" d) as [lat|]; try reflexivity.
    destruct (lookup "longitude" d) as [lon|]; try reflexivity.
    rewrite !select_eq, Hmode.
    now rewrite (accumulate_ext w1 w2 Hget).
  - rewrite run_eq, load_grid_eq.
    destruct (http_get w1 grid_file_url) as [[|d]|]; try reflexivity.
    destruct (lookup "latitude" d) as [lat|]; try reflexivity.
    destruct (lookup "longitude" d) as [lon|]; try reflexivity.
    rewrite select_eq, Hmode. cbn [fst snd].
    match goal with
    | |- context [accumulate w1 ?st ?urls ?t] =>
        destruct (accumulate w1 st urls t) as [t2 r] eqn:Ea
    end.
    apply accumulate_trace_any in Ea as [k ->].
    destruct r as [st|e].
    + match goal with
      | |- context [finish ?u ?la ?lo ?s ?t] =>
          destruct (finish u la lo s t) as [t3 r3] eqn:Ef
      end.
      apply finish_trace in Ef as [msgs ->]. cbn [fst].
      now rewrite !listings_of_app, listings_of_map_Download,
        listings_of_map_Print.
    + cbn [fst]. now rewrite listings_of_app, listings_of_map_Download.
Qed.

Lemma single_time_ignores_listing_witness :
  run world_day single_config
  = run {| container := None; http_get := http_get world_day |}
      single_config /\
  listings_of (fst (run world_day single_config)) = [] /\
  exists t g, run world_day single_config = (t, Ok g) /\
              g_blob_urls g = [url_0200].
Proof.
  destruct (single_time_ignores_listing world_day
              {| container := None; http_get := http_get world_day |}
              single_config eq_refl (fun _ => eq_refl)) as [H1 H2].
  split; [exact H1|]. split; [exact H2|].
  do 2 eexists. split; [vm_compute; reflexivity|reflexivity].
Defined.

(** *** Successful runs *)

(** X9.  The trace of a successful run: the grid file, the selection's
    events, one download per selected URL in selection order, the range
    and the description; so the grid file and every sample are
    downloaded exactly once and the container is listed at most once. *)
Theorem successful_run_trace (w : World) (c : Config) (t : list event)
    (g : Globals) :
  run w c = (t, Ok g) ->
  exists d vd,
    http_get w grid_file_url = Some (GzNetcdf d) /\
    t = [Download grid_file_url; Print (MsgVariables d)]
        ++ (if single_time_point c then []
            else [Print (MsgFinding (day_prefix c));
                  ListBlobs (day_prefix c);
                  Print (MsgFound (length (g_blob_urls g)))])
        ++ map Download (g_blob_urls g)
        ++ [Print (MsgRange (g_min_rf g) (g_rain_units g) (g_max_rf g));
            Print (MsgDescription vd)] /\
    downloads_of t = grid_file_url :: g_blob_urls g /\
    listings_of t = if single_time_point c then [] else [day_prefix c].
Proof.
  intros Hrun.
  apply run_ok in Hrun
    as (lat & lon & t0 & t1 & t2 & st & Hload & Hsel & Hacc & Hfin).
  rewrite load_grid_eq in Hload.
  destruct (http_get w grid_file_url) as [[|d]|]; try discriminate.
  destruct (lookup "latitude" d), (lookup "longitude" d); try discriminate.
  injection Hload as <- _ _.
  apply accumulate_trace in Hacc. subst t2.
  apply finish_ok in Hfin as (mn & mx & un & _ & _ & _ & _ & _ & -> & Hg).
  exists d, (variable_description st). split; [reflexivity|].
  assert (Ht1 : t1 = [Download grid_file_url; Print (MsgVariables d)]
                     ++ (if single_time_point c then []
                         else [Print (MsgFinding (day_prefix c));
                               ListBlobs (day_prefix c);
                               Print (MsgFound (length (g_blob_urls g)))])).
  { rewrite select_eq in Hsel. destruct (single_time_point c).
    - injection Hsel as <- _. now rewrite app_nil_r.
    - destruct (container w) as [names|]; [|discriminate].
      injection Hsel as <- Hu. now rewrite Hu. }
  assert (Hm : g_min_rf g = mn /\ g_max_rf g = mx /\ g_rain_units g = un)
    by (rewrite Hg; auto).
  destruct Hm as (-> & -> & ->). rewrite Ht1.
  split; [now rewrite <- !app_assoc|].
  rewrite !downloads_of_app, !listings_of_app, downloads_of_map_Download,
    listings_of_map_Download.
  destruct (single_time_point c); split; cbn; rewrite ?app_nil_r;
    reflexivity.
Qed.

Lemma successful_run_trace_witness :
  exists t g,
    run world_two notebook_config = (t, Ok g) /\
    downloads_of t = [grid_file_url; url_a; url_b] /\
    listings_of t = ["rain_rate/2020/04/09"].
Proof.
  do 2 eexists. split; [vm_compute; reflexivity|].
  destruct (successful_run_trace world_two notebook_config _ _ eq_refl)
    as (d & vd & _ & _ & Hd & Hl).
  split; [exact Hd|exact Hl].
Defined.

(** X10.  Latitude and longitude grids of different shapes: no run
    succeeds; and when the loop and the range message get through, the
    run ends with [AssertionError] only then, every selected sample
    having been downloaded. *)
Theorem grids_of_different_shape_abort (w : World) (c : Config)
    (t0 : list event) (lat lon : variable) :
  load_grid w [] = (t0, Ok (lat, lon)) ->
  shape (values lat) <> shape (values lon) ->
  (exists t e, run w c = (t, Raise e)) /\
  (forall t1 t2 urls st mn un,
     select w c t0 = (t1, Ok urls) ->
     accumulate w (init_acc lat) urls t1 = (t2, Ok st) ->
     Np.min (rainfall st) = Some mn ->
     rain_units st = Some un ->
     exists t,
       run w c = (t, Raise AssertionError) /\
       downloads_of t = grid_file_url :: urls).
Proof.
  intros Hload Hne. split.
  - destruct (run w c) as [t [g|e]] eqn:Hrun; [exfalso|now exists t, e].
    apply run_ok in Hrun
      as (lat' & lon' & t0' & t1 & t2 & st & Hload' & _ & _ & Hfin).
    rewrite Hload in Hload'. injection Hload' as <- <- <-.
    apply finish_ok in Hfin as (_ & _ & _ & _ & _ & _ & H1 & H2 & _).
    congruence.
  - intros t1 t2 urls st mn un Hsel Hacc Hmin Hun.
    assert (Hmax : exists mx, Np.max (rainfall st) = Some mx).
    { unfold Np.min, Np.max, reduce in *.
      destruct (concat (rows (rainfall st))); [discriminate|eauto]. }
    destruct Hmax as [mx Hmax].
    assert (Ht0 : downloads_of t0 = [grid_file_url]).
    { rewrite load_grid_eq in Hload.
      destruct (http_get w grid_file_url) as [[|d]|]; try discriminate.
      destruct (lookup "latitude" d), (lookup "longitude" d);
        try discriminate.
      now injection Hload as <- _ _. }
    assert (Ht1 : downloads_of t1 = [grid_file_url]).
    { rewrite select_eq in Hsel. destruct (single_time_point c).
      - now injection Hsel as <- _.
      - destruct (container w); [|discriminate].
        injection Hsel as <- _. rewrite downloads_of_app, Ht0.
        reflexivity. }
    pose proof (accumulate_trace _ _ _ _ _ _ Hacc) as Ht2.
    rewrite run_eq, Hload, Hsel. cbn [fst snd]. rewrite Hacc.
    unfold finish. unfold_cmd. rewrite Hmin, Hmax, Hun.
    destruct (shape_eqb (shape (rainfall st)) (shape (values lat))) eqn:E1.
    + destruct (shape_eqb (shape (rainfall st)) (shape (values lon)))
        eqn:E2.
      * apply shape_eqb_eq in E1, E2. congruence.
      * eexists. split; [reflexivity|]. subst t2.
        rewrite !downloads_of_app, Ht1, downloads_of_map_Download.
        cbn. rewrite ?app_nil_r. reflexivity.
    + eexists. split; [reflexivity|]. subst t2.
      rewrite !downloads_of_app, Ht1, downloads_of_map_Download.
      cbn. rewrite ?app_nil_r. reflexivity.
Qed.

Lemma grids_of_different_shape_abort_witness :
  shape (values lat22) = (2%nat, 2%nat) /\
  exists t,
    run world_skew notebook_config = (t, Raise AssertionError) /\
    downloads_of t = grid_file_url :: [url_a].
Proof.
  split; [reflexivity|].
  destruct (grids_of_different_shape_abort world_skew notebook_config
              [Download grid_file_url;
               Print (MsgVariables
                        [("latitude", lat22);
                         ("longitude", {| values := arr 2 [[7; 8]];
                                          units := Some "degrees_east" |})])]
              lat22
              {| values := arr 2 [[7; 8]]; units := Some "degrees_east" |}
              eq_refl) as [_ H].
  - discriminate.
  - eapply H.
    + vm_compute. reflexivity.
    + vm_compute. reflexivity.
    + reflexivity.
    + reflexivity.
Defined.

(** X11.  A run never succeeds over an empty selection, nor with an
    aggregate without a cell. *)
Theorem successful_run_has_samples (w : World) (c : Config)
    (t : list event) (g : Globals) :
  run w c = (t, Ok g) ->
  g_blob_urls g <> [] /\ concat (rows (g_rainfall_raw g)) <> [].
Proof.
  intros Hrun.
  apply run_ok in Hrun
    as (lat & lon & t0 & t1 & t2 & st & _ & _ & Hacc & Hfin).
  apply finish_ok in Hfin as (mn & mx & un & Hmin & _ & Hun & _ & _ & _ & Hg).
  split.
  - intros E. rewrite E in Hacc. injection Hacc as _ <-. discriminate Hun.
  - rewrite Hg. cbn [g_rainfall_raw]. unfold Np.min, reduce in Hmin.
    destruct (concat (rows (rainfall st))); [discriminate|discriminate].
Qed.

Lemma successful_run_has_samples_witness :
  exists t g,
    run world_two notebook_config = (t, Ok g) /\
    g_blob_urls g <> [] /\ concat (rows (g_rainfall_raw g)) <> [].
Proof.
  do 2 eexists. split; [vm_compute; reflexivity|].
  apply (successful_run_has_samples world_two notebook_config _ _ eq_refl).
Defined.



(** *** The loop *)

(** In exact arithmetic and without masked cells: over samples of the
    grid's shape the loop succeeds and every
    cell of its aggregate is the sum, over the selected URLs, of the
    sample's cell with negative values counted as zero: a sum, not a
    mean. *)
Theorem aggregate_is_the_sum (w : World) (lat : variable)
    (urls : list string) (t : list event) :
  Forall (good_sample w (shape (values lat))) urls ->
  exists st,
    accumulate w (init_acc lat) urls t = (t ++ map Download urls, Ok st) /\
    shape (rainfall st) = shape (values lat) /\
    forall i j,
      (i < nrows (values lat))%nat -> (j < ncols (values lat))%nat ->
      get (rainfall st) i j
      = fold_right Z.add 0
          (map (fun u => match sample_at w u with
                         | Some v => Z.max (get (values v) i j) 0
                         | None => 0
                         end) urls).
Proof.
  intros Hgood.
  assert (Hwf : wf (rainfall (init_acc lat))) by apply wf_zeros.
  assert (Hs : shape (rainfall (init_acc lat)) = shape (values lat))
    by apply shape_zeros.
  destruct (accumulate_good w _ urls Hgood _ t Hwf Hs)
    as (st & Hacc & Hr & _ & Hs').
  exists st. split; [exact Hacc|]. split; [exact Hs'|].
  intros i j Hi Hj. rewrite Hr.
  rewrite (get_fold_add_cells w (shape (values lat)) urls i j Hgood Hi Hj
             _ Hwf Hs).
  cbn [init_acc rainfall]. now rewrite get_zeros.
Qed.

Lemma aggregate_is_the_sum_witness :
  exists st,
    accumulate world_two (init_acc lat22) [url_a; url_b; url_a] []
      = ([] ++ map Download [url_a; url_b; url_a], Ok st) /\
    get (rainfall st) 0 0 = 5 /\ get (rainfall st) 0 1 = 4.
Proof.
  destruct (aggregate_is_the_sum world_two lat22 [url_a; url_b; url_a] [])
    as (st & Hacc & _ & Hcells).
  - repeat constructor.
    + exists {| values := arr 2 [[1; -1]; [0; 2]]; units := Some "mm" |}, "mm".
      repeat split. apply wfb_wf. reflexivity.
    + exists {| values := arr 2 [[3; 4]; [-1; -1]]; units := Some "mm" |}, "mm".
      repeat split. apply wfb_wf. reflexivity.
    + exists {| values := arr 2 [[1; -1]; [0; 2]]; units := Some "mm" |}, "mm".
      repeat split. apply wfb_wf. reflexivity.
  - exists st. split; [exact Hacc|]. split.
    + rewrite (Hcells 0%nat 0%nat); [reflexivity|vm_compute; lia|vm_compute; lia].
    + rewrite (Hcells 0%nat 1%nat); [reflexivity|vm_compute; lia|vm_compute; lia].
Defined.

(** In exact arithmetic and without masked cells, a pass of the loop
    body over any sample the addition accepts:
    each extent of the new aggregate is the broadcast of the two
    extents, and each of its cells is the aggregate's cell plus the
    sample's cell with negative values counted as zero, both read at the
    index 0 on an axis of extent 1. *)
Theorem fold_broadcast_cell (w : World) (st st' : Acc) (u : string)
    (t t' : list event) (v : variable) :
  wf (rainfall st) ->
  sample_at w u = Some v ->
  wf (values v) ->
  fold_sample w st u t = (t', Ok st') ->
  wf (rainfall st') /\
  broadcast_dim (nrows (rainfall st)) (nrows (values v))
    = Some (nrows (rainfall st')) /\
  broadcast_dim (ncols (rainfall st)) (ncols (values v))
    = Some (ncols (rainfall st')) /\
  forall i j,
    (i < nrows (rainfall st'))%nat -> (j < ncols (rainfall st'))%nat ->
    get (rainfall st') i j
    = get (rainfall st) (bcast_index (nrows (rainfall st)) i)
        (bcast_index (ncols (rainfall st)) j)
      + Z.max (get (values v) (bcast_index (nrows (values v)) i)
                 (bcast_index (ncols (values v)) j)) 0.
Proof.
  intros Hwf Hv Hvwf Hf.
  apply fold_sample_ok in Hf as (v' & un & Hv' & _ & Hadd & _).
  rewrite Hv in Hv'. injection Hv' as <-.
  destruct (add_spec _ _ _ Hwf (wf_mask_negative _ Hvwf) Hadd)
    as (Hwf' & Hr & Hc & Hget).
  assert (Hmr : nrows (mask_negative (values v)) = nrows (values v))
    by apply length_map.
  rewrite Hmr in Hr, Hget.
  change (ncols (mask_negative (values v))) with (ncols (values v))
    in Hc, Hget.
  repeat split; try assumption.
  intros i j Hi Hj. rewrite Hget by assumption.
  now rewrite get_mask_negative.
Qed.

Lemma fold_broadcast_cell_witness :
  let st' := {| rainfall := arr 2 [[5; 7]; [5; 7]];
                variable_description :=
                  Some [("rain", {| values := arr 2 [[5; 7]];
                                    units := Some "mm" |})];
                rain_units := Some "mm" |} in
  fold_sample world_row (init_acc lat22) url_a []
    = ([Download url_a], Ok st') /\
  get (rainfall st') 1 1 = 0 + Z.max 7 0.
Proof.
  intros st'. split; [reflexivity|].
  destruct (fold_broadcast_cell world_row (init_acc lat22) st' url_a []
              [Download url_a]
              {| values := arr 2 [[5; 7]]; units := Some "mm" |})
    as (_ & _ & _ & Hget).
  - apply wfb_wf. reflexivity.
  - reflexivity.
  - apply wfb_wf. reflexivity.
  - reflexivity.
  - apply (Hget 1%nat 1%nat); vm_compute; lia.
Defined.

(** X15.  A sample with an axis whose extent differs from the
    aggregate's, neither being 1, ends the run at that sample with
    [ValueError]: the earlier samples and this one have been downloaded,
    no later one. *)
Theorem incompatible_sample_raises (w : World) (c : Config)
    (grid : variable * variable) (t0 t1 t2 : list event)
    (pre post : list string) (u : string) (st : Acc) (v : variable)
    (un : string) :
  load_grid w [] = (t0, Ok grid) ->
  select w c t0 = (t1, Ok (pre ++ u :: post)) ->
  accumulate w (init_acc (fst grid)) pre t1 = (t2, Ok st) ->
  sample_at w u = Some v ->
  units v = Some un ->
  (nrows (rainfall st) <> 1%nat /\ nrows (values v) <> 1%nat /\
   nrows (rainfall st) <> nrows (values v)) \/
  (ncols (rainfall st) <> 1%nat /\ ncols (values v) <> 1%nat /\
   ncols (rainfall st) <> ncols (values v)) ->
  run w c = (t1 ++ map Download pre ++ [Download u], Raise ValueError).
Proof.
  intros Hload Hsel Hacc Hv Hun Hbad.
  assert (Hadd : add (rainfall st) (mask_negative (values v)) = None).
  { unfold add.
    assert (Hmr : nrows (mask_negative (values v)) = nrows (values v))
      by apply length_map.
    rewrite Hmr.
    change (ncols (mask_negative (values v))) with (ncols (values v)).
    destruct Hbad as [H|H]; apply broadcast_dim_none in H; rewrite H;
      [reflexivity|].
    now destruct (broadcast_dim (nrows (rainfall st)) (nrows (values v))). }
  rewrite run_eq, Hload, Hsel, accumulate_app, Hacc, accumulate_cons.
  rewrite fold_sample_eq.
  apply accumulate_trace in Hacc. subst t2. rewrite <- app_assoc.
  unfold sample_at in Hv.
  destruct (http_get w u) as [[|d]|]; try discriminate.
  now rewrite Hv, Hun, Hadd.
Qed.

Lemma incompatible_sample_raises_witness :
  run world_tall notebook_config
  = ([Download grid_file_url;
      Print (MsgVariables [("latitude", lat22); ("longitude", lon22)]);
      Print (MsgFinding "rain_rate/2020/04/09");
      ListBlobs "rain_rate/2020/04/09";
      Print (MsgFound 1)]
     ++ map Download [] ++ [Download url_a],
     Raise ValueError).
Proof.
  eapply (incompatible_sample_raises world_tall notebook_config
            (lat22, lon22) _ _ _ [] [] url_a _
            {| values := arr 2 [[1; 2]; [3; 4]; [5; 6]];
               units := Some "mm" |} "mm").
  - vm_compute. reflexivity.
  - vm_compute. reflexivity.
  - reflexivity.
  - reflexivity.
  - reflexivity.
  - left. vm_compute. repeat split; discriminate.
Defined.

(** *** Downsampling and selection *)

(** X16.  The downsampled rainfall and grids of a run all have the shape
    (ceil(H/10), ceil(W/10)) for the latitude grid's shape (H, W), and
    they are rectangular when the raw arrays are. *)
Theorem downsampled_shape (blob_urls : list string) (lat lon : variable)
    (st : Acc) (t t' : list event) (g : Globals) :
  finish blob_urls lat lon st t = (t', Ok g) ->
  let s := (((nrows (values lat) + 9) / 10)%nat,
            ((ncols (values lat) + 9) / 10)%nat) in
  (shape (g_rainfall g) = s /\ shape (g_lat_grid g) = s /\
   shape (g_lon_grid g) = s) /\
  (wf (rainfall st) -> wf (g_rainfall g)) /\
  (wf (values lat) -> wf (g_lat_grid g)) /\
  (wf (values lon) -> wf (g_lon_grid g)).
Proof.
  intros Hfin s.
  apply finish_ok in Hfin
    as (mn & mx & un & _ & _ & _ & Hlat & Hlon & _ & ->).
  cbn [g_rainfall g_lat_grid g_lon_grid].
  assert (Hk : (1 <= ds_factor)%nat) by (unfold ds_factor; lia).
  assert (Hsh : forall a, shape a = shape (values lat) ->
            shape (decimate ds_factor a) = s).
  { intros a [= Hr Hc]. unfold shape.
    rewrite nrows_decimate by assumption. cbn [decimate ncols].
    now rewrite Hr, Hc. }
  split; [|repeat split; apply wf_decimate; assumption].
  repeat split; apply Hsh; congruence.
Qed.

Lemma downsampled_shape_witness :
  exists t g,
    finish [url_a] lat_strip lon_strip acc_strip [] = (t, Ok g) /\
    shape (values lat_strip) = (1%nat, 12%nat) /\
    shape (g_rainfall g) = (1%nat, 2%nat) /\
    wf (g_rainfall g).
Proof.
  do 2 eexists. split; [vm_compute; reflexivity|].
  split; [reflexivity|].
  destruct (downsampled_shape [url_a] lat_strip lon_strip acc_strip [] _ _
              eq_refl) as ((H & _) & Hwf & _).
  split; [exact H|]. apply Hwf. apply wfb_wf. reflexivity.
Defined.



(** X18.  The key of the single-time mode lies under the day's prefix:
    when the container holds the scan of that time, the full-day
    selection of the same day holds the single-time selection's URL. *)
Theorem single_key_in_full_day (w : World) (c : Config) (t : list event)
    (names : list string) :
  single_time_point c = true ->
  container w = Some names ->
  In (day_prefix c +s
        ("/NPR.GEO.GHE.v1.S" +s
           (syear c +s (smonth c +s (sday c +s (stime c +s ".nc.gz"))))))
     names ->
  exists key urls t',
    select w c t = (t, Ok [key]) /\
    select w {| product := product c; syear := syear c;
                smonth := smonth c; sday := sday c;
                single_time_point := false; stime := stime c |} t
    = (t', Ok urls) /\
    In key urls.
Proof.
  intros Hmode Hc Hin. rewrite !select_eq, Hmode. cbn [single_time_point].
  rewrite Hc.
  change (day_prefix {| product := product c; syear := syear c;
                        smonth := smonth c; sday := sday c;
                        single_time_point := false; stime := stime c |})
    with (day_prefix c).
  do 3 eexists. split; [reflexivity|]. split; [reflexivity|].
  apply in_map. apply filter_In. split; [exact Hin|].
  apply prefix_starts_with. eexists. reflexivity.
Qed.

Lemma single_key_in_full_day_witness :
  exists key urls t',
    select world_day single_config [] = ([], Ok [key]) /\
    key = url_0200 /\
    select world_day notebook_config [] = (t', Ok urls) /\
    In key urls.
Proof.
  destruct (single_key_in_full_day world_day single_config []
              ["rain_rate/2020/04/09/NPR.GEO.GHE.v1.S202004090145.nc.gz";
               "rain_rate/2020/04/09/NPR.GEO.GHE.v1.S202004090200.nc.gz"]
              eq_refl eq_refl)
    as (key & urls & t' & H1 & H2 & H3).
  - right. left. reflexivity.
  - exists key, urls, t'. split; [exact H1|].
    split; [|split; [exact H2|exact H3]].
    vm_compute in H1. now injection H1 as <-.
Defined.

End GheExtra.

(** ** The float64 fold step: facts *)

Module MaFacts.
Import Np NpFacts.

Local Open Scope list_scope.

Lemma broadcast_rows_spec {A : Type} (d : A) (h w nc : nat)
    (rows : list (list A)) :
  Forall (fun r => length r = nc) rows ->
  length rows = 1%nat \/ length rows = h ->
  nc = 1%nat \/ nc = w ->
  length (Ma.broadcast_rows h w rows) = h /\
  Forall (fun r => length r = w) (Ma.broadcast_rows h w rows) /\
  forall i j, (i < h)%nat -> (j < w)%nat ->
    nth j (nth i (Ma.broadcast_rows h w rows) []) d
    = nth (bcast_index nc j) (nth (bcast_index (length rows) i) rows []) d.
Proof.
  intros Hwf Hh Hw. unfold Ma.broadcast_rows.
  assert (Hlen : length (map (stretch w) rows) = length rows)
    by apply length_map.
  split; [apply length_stretch; now rewrite Hlen|].
  split.
  - apply Forall_stretch, Forall_forall. intros r Hr.
    apply in_map_iff in Hr as (r0 & <- & Hr0).
    apply length_stretch. rewrite Forall_forall in Hwf.
    now rewrite (Hwf _ Hr0).
  - intros i j Hi Hj.
    rewrite nth_stretch by assumption. rewrite Hlen.
    change (@nil A) with (stretch w (@nil A)) at 1.
    rewrite map_nth, nth_stretch by assumption.
    rewrite Forall_forall in Hwf.
    rewrite (Hwf (nth (bcast_index (length rows) i) rows [])); [reflexivity|].
    apply nth_In. now apply bcast_index_lt with h.
Qed.

(** What [a + b] is, cell by cell, whenever NumPy accepts the operands. *)
Lemma ma_add_spec (a b c : Ma.farray) :
  Ma.wf a -> Ma.wf b -> Ma.add a b = Some c ->
  Ma.wf c /\
  broadcast_dim (Ma.nrows a) (Ma.nrows b) = Some (Ma.nrows c) /\
  broadcast_dim (Ma.f_ncols a) (Ma.f_ncols b) = Some (Ma.f_ncols c) /\
  forall i j, (i < Ma.nrows c)%nat -> (j < Ma.f_ncols c)%nat ->
    Ma.get c i j
    = Ma.add_cell
        (Ma.get a (bcast_index (Ma.nrows a) i) (bcast_index (Ma.f_ncols a) j))
        (Ma.get b (bcast_index (Ma.nrows b) i) (bcast_index (Ma.f_ncols b) j)).
Proof.
  intros Ha Hb. unfold Ma.add.
  destruct (broadcast_dim (Ma.nrows a) (Ma.nrows b)) as [h|] eqn:Eh;
    [|discriminate].
  destruct (broadcast_dim (Ma.f_ncols a) (Ma.f_ncols b)) as [w|] eqn:Ew;
    [|discriminate].
  intros [= <-].
  destruct (broadcast_dim_cases _ _ _ Eh) as [Hah Hbh].
  destruct (broadcast_dim_cases _ _ _ Ew) as [Haw Hbw].
  destruct (broadcast_rows_spec (A := Ma.cell) None h w _ _ Ha Hah Haw)
    as (La & Fa & Ga).
  destruct (broadcast_rows_spec (A := Ma.cell) None h w _ _ Hb Hbh Hbw)
    as (Lb & Fb & Gb).
  assert (Hn : Ma.nrows
                 {| Ma.f_ncols := w;
                    Ma.f_rows := zip_with (zip_with Ma.add_cell)
                                   (Ma.broadcast_rows h w (Ma.f_rows a))
                                   (Ma.broadcast_rows h w (Ma.f_rows b)) |}
               = h).
  { unfold Ma.nrows. cbn [Ma.f_rows]. rewrite length_zip_with, La, Lb. lia. }
  rewrite Hn. cbn [Ma.f_ncols].
  split; [|split; [reflexivity|split; [reflexivity|]]].
  - unfold Ma.wf. cbn [Ma.f_rows Ma.f_ncols].
    apply Forall_zip_with
      with (P := fun r => length r = w) (Q := fun r => length r = w);
      try assumption.
    intros x y Hx Hy. rewrite length_zip_with. lia.
  - intros i j Hi Hj. unfold Ma.get. cbn [Ma.f_rows].
    rewrite (nth_zip_with _ _ _ _ [] []) by lia.
    assert (Hra : length (nth i (Ma.broadcast_rows h w (Ma.f_rows a)) []) = w).
    { rewrite Forall_forall in Fa. apply Fa, nth_In. lia. }
    assert (Hrb : length (nth i (Ma.broadcast_rows h w (Ma.f_rows b)) []) = w).
    { rewrite Forall_forall in Fb. apply Fb, nth_In. lia. }
    rewrite (nth_zip_with _ _ _ _ None None) by lia.
    rewrite Ga, Gb by assumption. reflexivity.
Qed.

Lemma ma_add_same_shape (a b : Ma.farray) :
  Ma.shape a = Ma.shape b -> exists c, Ma.add a b = Some c.
Proof.
  intros [= Hr Hc]. unfold Ma.add.
  rewrite <- Hr, <- Hc, !broadcast_dim_same. eauto.
Qed.

Lemma ma_wfb_wf (a : Ma.farray) : Ma.wfb a = true <-> Ma.wf a.
Proof.
  unfold Ma.wfb, Ma.wf. rewrite forallb_forall, Forall_forall.
  split; intros H r Hr; apply Nat.eqb_eq; auto.
Qed.




Lemma ma_wf_mask_negative (a : Ma.farray) :
  Ma.wf a -> Ma.wf (Ma.mask_negative a).
Proof.
  unfold Ma.wf, Ma.mask_negative. simpl. rewrite !Forall_forall.
  intros H r Hr. apply in_map_iff in Hr as (r0 & <- & Hr0).
  rewrite length_map. auto.
Qed.

Lemma nrows_mask_negative (a : Ma.farray) :
  Ma.nrows (Ma.mask_negative a) = Ma.nrows a.
Proof. apply length_map. Qed.

Lemma ma_get_mask_negative (a : Ma.farray) (i j : nat) :
  Ma.get (Ma.mask_negative a) i j = option_map Ma.clamp (Ma.get a i j).
Proof.
  unfold Ma.get, Ma.mask_negative. cbn [Ma.f_rows].
  change (@nil (option float)) with (map (option_map Ma.clamp) []) at 1.
  rewrite map_nth.
  change (@None float) with (option_map Ma.clamp None) at 1.
  now rewrite map_nth.
Qed.

Lemma bcast_index_in_range (d i : nat) : (i < d)%nat -> bcast_index d i = i.
Proof. intros H. unfold bcast_index. destruct (Nat.eqb_spec d 1); lia. Qed.

(** A pass over a sample of the aggregate's shape, cell by cell. *)
Lemma fold_same_shape (a s : Ma.farray) :
  Ma.wf a -> Ma.wf s -> Ma.shape s = Ma.shape a ->
  exists a',
    Ma.fold a s = Some a' /\ Ma.shape a' = Ma.shape a /\ Ma.wf a' /\
    forall i j, (i < Ma.nrows a)%nat -> (j < Ma.f_ncols a)%nat ->
      Ma.get a' i j
      = Ma.add_cell (Ma.get a i j) (option_map Ma.clamp (Ma.get s i j)).
Proof.
  intros Ha Hs Hsh. injection Hsh as Hr Hc.
  destruct (ma_add_same_shape a (Ma.mask_negative s)) as [a' Hadd].
  { unfold Ma.shape. rewrite nrows_mask_negative. cbn [Ma.mask_negative
      Ma.f_ncols]. now rewrite Hr, Hc. }
  exists a'. split; [exact Hadd|].
  destruct (ma_add_spec _ _ _ Ha (ma_wf_mask_negative _ Hs) Hadd)
    as (Hwf' & Er & Ec & Hget).
  rewrite nrows_mask_negative, Hr, broadcast_dim_same in Er.
  cbn [Ma.mask_negative Ma.f_ncols] in Ec.
  rewrite Hc, broadcast_dim_same in Ec.
  injection Er as Er. injection Ec as Ec.
  split; [unfold Ma.shape; now rewrite <- Er, <- Ec|].
  split; [exact Hwf'|].
  intros i j Hi Hj. rewrite Hget by lia.
  rewrite nrows_mask_negative. cbn [Ma.mask_negative Ma.f_ncols].
  rewrite Hr, Hc, !bcast_index_in_range by assumption.
  now rewrite ma_get_mask_negative.
Qed.



End MaFacts.

(** ** The fold step as NumPy computes it *)

Module MaSpec.
Import Np NpFacts MaFacts.

Local Open Scope list_scope.

(** C1, as the notebook has it.  One pass of lines 148 and 152 over a
    sample of the aggregate's shape succeeds and keeps the shape.  A
    cell unmasked in both arrays becomes the float64 sum of the
    aggregate's value and the sample's, a sample value below zero
    counting as zero and any other one as it is; a cell masked in the
    sample or in the aggregate is masked in the new aggregate. *)
Theorem fold_step_cells (rainfall rainfall_sample : Ma.farray) :
  Ma.wf rainfall ->
  Ma.wf rainfall_sample ->
  Ma.shape rainfall_sample = Ma.shape rainfall ->
  exists rainfall',
    Ma.fold rainfall rainfall_sample = Some rainfall' /\
    Ma.shape rainfall' = Ma.shape rainfall /\
    forall i j,
      (i < Ma.nrows rainfall)%nat -> (j < Ma.f_ncols rainfall)%nat ->
      Ma.get rainfall' i j
      = match Ma.get rainfall i j, Ma.get rainfall_sample i j with
        | Some a, Some s =>
            Some (PrimFloat.add a
                    (if PrimFloat.ltb s 0%float then 0%float else s))
        | _, _ => None
        end.
Proof.
  intros Ha Hs Hsh.
  destruct (fold_same_shape _ _ Ha Hs Hsh) as (a' & Hf & Hsh' & _ & Hget).
  exists a'. split; [exact Hf|]. split; [exact Hsh'|].
  intros i j Hi Hj. rewrite (Hget i j Hi Hj).
  destruct (Ma.get rainfall i j), (Ma.get rainfall_sample i j); reflexivity.
Qed.

Lemma fold_step_cells_witness :
  let rainfall := Ma.farr 2 [[Some 1.5%float; Some 2%float];
                             [Some 0%float; Some 4%float]] in
  let rainfall_sample := Ma.farr 2 [[Some 2.25%float; Some (-1)%float];
                                    [None; Some 0.5%float]] in
  exists rainfall',
    Ma.fold rainfall rainfall_sample = Some rainfall' /\
    Ma.get rainfall' 0 0 = Some 3.75%float /\
    Ma.get rainfall' 0 1 = Some 2%float /\
    Ma.get rainfall' 1 0 = None.
Proof.
  intros rainfall rainfall_sample.
  destruct (fold_step_cells rainfall rainfall_sample)
    as (rainfall' & Hf & _ & Hget).
  - apply ma_wfb_wf. reflexivity.
  - apply ma_wfb_wf. reflexivity.
  - reflexivity.
  - exists rainfall'. split; [exact Hf|].
    split; [|split].
    + rewrite (Hget 0%nat 0%nat); [reflexivity|vm_compute; lia|vm_compute; lia].
    + rewrite (Hget 0%nat 1%nat); [reflexivity|vm_compute; lia|vm_compute; lia].
    + rewrite (Hget 1%nat 0%nat); [reflexivity|vm_compute; lia|vm_compute; lia].
Defined.

(** The increase is not always the sample's value.  Over the aggregate
    cell 2^53 the positive sample value 1 leaves the cell at 2^53: the
    float64 sum rounds.  Over the aggregate cell 1 a masked sample cell
    leaves no number at all: the cell is masked. *)
Lemma fold_step_not_exact :
  PrimFloat.ltb 0%float 1%float = true /\
  Ma.fold (Ma.farr 1 [[Some Ma.two53]]) (Ma.farr 1 [[Some 1%float]])
    = Some (Ma.farr 1 [[Some Ma.two53]]) /\
  Ma.fold (Ma.farr 1 [[Some 1%float]]) (Ma.farr 1 [[None]])
    = Some (Ma.farr 1 [[None]]).
Proof. repeat split. Qed.





End MaSpec.

(** ** Samples whose shape is not the grid's *)

Module GheShapes.
Import Np NpFacts Ghe GheFacts GheMoreFacts GheCases.

Local Open Scope string_scope.
Local Open Scope list_scope.

Lemma broadcast_dim_compatible (d1 d2 : nat) :
  d1 = 1%nat \/ d2 = 1%nat \/ d1 = d2 ->
  broadcast_dim d1 d2 = Some (if Nat.eqb d1 1 then d2 else d1).
Proof.
  unfold broadcast_dim.
  destruct (Nat.eqb_spec d1 1), (Nat.eqb_spec d2 1), (Nat.eqb_spec d1 d2);
    intros [H|[H|H]]; try reflexivity; contradiction.
Qed.

(** The loop body on a decodable sample, by the extents. *)
Lemma fold_sample_by_shape (w : World) (st : Acc) (u : string)
    (t : list event) (v : variable) (un : string) :
  sample_at w u = Some v ->
  units v = Some un ->
  (broadcast_dim (nrows (rainfall st)) (nrows (values v)) = None \/
   broadcast_dim (ncols (rainfall st)) (ncols (values v)) = None ->
   fold_sample w st u t = (t ++ [Download u], Raise ValueError)) /\
  (forall h' w',
     broadcast_dim (nrows (rainfall st)) (nrows (values v)) = Some h' ->
     broadcast_dim (ncols (rainfall st)) (ncols (values v)) = Some w' ->
     exists st',
       fold_sample w st u t = (t ++ [Download u], Ok st') /\
       shape (rainfall st') = (h', w')).
Proof.
  intros Hv Hun. rewrite fold_sample_eq. unfold sample_at in Hv.
  destruct (http_get w u) as [[|d]|]; try discriminate.
  rewrite Hv, Hun.
  assert (Hmr : nrows (mask_negative (values v)) = nrows (values v))
    by apply length_map.
  split.
  - intros Hnone.
    assert (Hadd : add (rainfall st) (mask_negative (values v)) = None).
    { unfold add. rewrite Hmr.
      change (ncols (mask_negative (values v))) with (ncols (values v)).
      destruct Hnone as [-> | ->]; [reflexivity|].
      now destruct (broadcast_dim (nrows (rainfall st)) (nrows (values v))). }
    now rewrite Hadd.
  - intros h' w' Eh Ew.
    destruct (add (rainfall st) (mask_negative (values v))) as [r|] eqn:Hadd.
    + eexists. split; [reflexivity|]. cbn [rainfall].
      apply add_shape in Hadd as [Er Ec]. rewrite Hmr in Er.
      change (ncols (mask_negative (values v))) with (ncols (values v)) in Ec.
      unfold shape. congruence.
    + exfalso. unfold add in Hadd. rewrite Hmr in Hadd.
      change (ncols (mask_negative (values v))) with (ncols (values v))
        in Hadd.
      rewrite Eh, Ew in Hadd. discriminate.
Qed.

(** C3, as the notebook has it.  A selected sample whose shape (h, w)
    differs from the grid's (H, W), the samples before it having the
    grid's shape.  (1) When on some axis the two extents differ and
    neither is 1, the addition refuses the operands: the run ends at
    that sample with [ValueError].  (2) When each extent of the sample is
    1 or the grid's, the pass succeeds and the aggregate keeps the
    grid's shape: the sample is broadcast.  (3) When the extents are
    compatible and the grid's is 1 where the sample's is not, the pass
    succeeds too and the aggregate takes the larger extent; the run then
    fails, and when the loop and [np.min] get through it fails only at
    the shape assertions, with [AssertionError], every selected sample
    having been downloaded. *)
Theorem shape_mismatch_outcomes (w : World) (c : Config)
    (lat lon : variable) (t0 t1 : list event) (pre post : list string)
    (u : string) (v : variable) (un : string) :
  load_grid w [] = (t0, Ok (lat, lon)) ->
  select w c t0 = (t1, Ok (pre ++ u :: post)) ->
  Forall (good_sample w (shape (values lat))) pre ->
  sample_at w u = Some v ->
  units v = Some un ->
  shape (values v) <> shape (values lat) ->
  let H := nrows (values lat) in
  let W := ncols (values lat) in
  let h := nrows (values v) in
  let w' := ncols (values v) in
  let t2 := t1 ++ map Download pre in
  exists st,
    accumulate w (init_acc lat) pre t1 = (t2, Ok st) /\
    shape (rainfall st) = (H, W) /\
    ((H <> 1 /\ h <> 1 /\ H <> h) \/ (W <> 1 /\ w' <> 1 /\ W <> w') ->
     fold_sample w st u t2 = (t2 ++ [Download u], Raise ValueError) /\
     run w c = (t2 ++ [Download u], Raise ValueError))%nat /\
    (fits h H -> fits w' W ->
     exists st',
       fold_sample w st u t2 = (t2 ++ [Download u], Ok st') /\
       shape (rainfall st') = (H, W)) /\
    ((H = 1 \/ h = 1 \/ H = h) -> (W = 1 \/ w' = 1 \/ W = w') ->
     (H = 1 /\ h <> 1) \/ (W = 1 /\ w' <> 1) ->
     (exists st',
        fold_sample w st u t2 = (t2 ++ [Download u], Ok st') /\
        shape (rainfall st')
        = (if Nat.eqb H 1 then h else H, if Nat.eqb W 1 then w' else W) /\
        shape (rainfall st') <> (H, W)) /\
     (exists t e, run w c = (t, Raise e)) /\
     (forall t3 st3 mn,
        accumulate w (init_acc lat) (pre ++ u :: post) t1 = (t3, Ok st3) ->
        Np.min (rainfall st3) = Some mn ->
        exists mx un3,
          t3 = t1 ++ map Download (pre ++ u :: post) /\
          run w c
          = (t3 ++ [Print (MsgRange mn un3 mx);
                    Print (MsgDescription (variable_description st3))],
             Raise AssertionError)))%nat.
Proof.
  intros Hload Hsel Hgood Hv Hun Hne H W h w' t2.
  assert (Hwf0 : wf (rainfall (init_acc lat))) by apply wf_zeros.
  assert (Hs0 : shape (rainfall (init_acc lat)) = shape (values lat))
    by apply shape_zeros.
  destruct (accumulate_good w _ pre Hgood _ t1 Hwf0 Hs0)
    as (st & Hacc & _ & _ & Hs).
  exists st. split; [exact Hacc|]. split; [exact Hs|].
  injection Hs as Hsr Hsc.
  destruct (fold_sample_by_shape w st u t2 v un Hv Hun) as [Hbad Hgoodshape].
  rewrite Hsr, Hsc in Hbad, Hgoodshape. fold H W h w' in Hbad, Hgoodshape.
  assert (Hrun : run w c
                 = match fold_sample w st u t2 with
                   | (t', Ok st') => 
                       match accumulate w st' post t' with
                       | (t3, Ok st3) => finish (pre ++ u :: post) lat lon st3 t3
                       | (t3, Raise e) => (t3, Raise e)
                       end
                   | (t', Raise e) => (t', Raise e)
                   end).
  { rewrite run_eq, Hload, Hsel. cbn [fst snd].
    rewrite accumulate_app, Hacc, accumulate_cons. unfold t2.
    destruct (fold_sample w st u (t1 ++ map Download pre))
      as [t' [st'|e]]; reflexivity. }
  (* No successful loop ends with the grid's shape when the sample
     does not fit it. *)
  assert (Hnofit : ~ (fits h H /\ fits w' W) ->
            forall t3 st3,
              accumulate w (init_acc lat) (pre ++ u :: post) t1 = (t3, Ok st3) ->
              shape (rainfall st3) <> shape (values lat)).
  { intros Hn t3 st3 Hacc3 Hsh. apply Hn.
    apply accumulate_fits in Hacc3 as [_ Hall].
    specialize (Hall u v (in_elt u pre post) Hv).
    injection Hsh as Hr Hc. now rewrite Hr, Hc in Hall. }
  split; [|split].
  - intros Hinc.
    assert (E : fold_sample w st u t2 = (t2 ++ [Download u], Raise ValueError)).
    { apply Hbad. destruct Hinc as [Hi|Hi]; [left|right];
        now apply broadcast_dim_none. }
    split; [exact E|]. now rewrite Hrun, E.
  - intros Hfh Hfw. apply Hgoodshape.
    + rewrite broadcast_dim_compatible
        by (destruct Hfh as [-> | ->]; auto).
      destruct (Nat.eqb_spec H 1) as [E1|]; [|reflexivity].
      destruct Hfh as [-> | ->]; congruence.
    + rewrite broadcast_dim_compatible
        by (destruct Hfw as [-> | ->]; auto).
      destruct (Nat.eqb_spec W 1) as [E1|]; [|reflexivity].
      destruct Hfw as [-> | ->]; congruence.
  - intros Hcr Hcc Hbig.
    assert (Hn : ~ (fits h H /\ fits w' W)).
    { unfold fits. intros [Hfh Hfw]. destruct Hbig as [[E1 E2]|[E1 E2]]; lia. }
    split; [|split].
    + destruct (Hgoodshape _ _ (broadcast_dim_compatible _ _ Hcr)
                  (broadcast_dim_compatible _ _ Hcc)) as (st' & Hf & Hs').
      exists st'. split; [exact Hf|]. split; [exact Hs'|].
      rewrite Hs'. intros [= E1 E2].
      destruct (Nat.eqb_spec H 1), (Nat.eqb_spec W 1);
        destruct Hbig as [[? ?]|[? ?]]; lia.
    + destruct (run w c) as [t [g|e]] eqn:Er; [exfalso|now exists t, e].
      apply run_ok in Er
        as (lat' & lon' & t0' & t1' & t3 & st3 & Hload' & Hsel' & Hacc3 & Hfin).
      rewrite Hload in Hload'. injection Hload' as <- <- <-.
      rewrite Hsel in Hsel'. injection Hsel' as <- Hurls.
      rewrite <- Hurls in Hacc3.
      apply finish_ok in Hfin as (_ & _ & _ & _ & _ & _ & Hshape & _).
      exact (Hnofit Hn _ _ Hacc3 Hshape).
    + intros t3 st3 mn Hacc3 Hmin.
      assert (Hmax : exists mx, Np.max (rainfall st3) = Some mx).
      { unfold Np.min, Np.max, reduce in *.
        destruct (concat (rows (rainfall st3))); [discriminate|eauto]. }
      destruct Hmax as [mx Hmax].
      assert (Hun3 : exists un3, rain_units st3 = Some un3).
      { assert (Hnil : pre ++ u :: post <> []) by (now destruct pre).
        pose proof Hacc3 as Hacc3'.
        rewrite (app_removelast_last "" Hnil) in Hacc3'.
        apply accumulate_units in Hacc3' as (_ & un3 & _ & _ & Hu3). eauto. }
      destruct Hun3 as [un3 Hun3].
      exists mx, un3. split; [now apply accumulate_trace in Hacc3|].
      pose proof (Hnofit Hn _ _ Hacc3) as Hsh3.
      rewrite run_eq, Hload, Hsel. cbn [fst snd]. rewrite Hacc3.
      unfold finish. unfold_cmd. rewrite Hmin, Hmax, Hun3.
      destruct (shape_eqb (shape (rainfall st3)) (shape (values lat))) eqn:E.
      * apply shape_eqb_eq in E. contradiction.
      * now rewrite <- app_assoc.
Qed.

Lemma shape_mismatch_outcomes_witness :
  (shape (values lat22) = (2%nat, 2%nat) /\
   run world_tall notebook_config
   = ([Download grid_file_url;
       Print (MsgVariables [("latitude", lat22); ("longitude", lon22)]);
       Print (MsgFinding "rain_rate/2020/04/09");
       ListBlobs "rain_rate/2020/04/09"; Print (MsgFound 1)]
      ++ map Download [] ++ [Download url_a],
      Raise ValueError)) /\
  (exists st st',
     fold_sample world_row st url_a
       ([Download grid_file_url;
         Print (MsgVariables [("latitude", lat22); ("longitude", lon22)]);
         Print (MsgFinding "rain_rate/2020/04/09");
         ListBlobs "rain_rate/2020/04/09"; Print (MsgFound 1)]
        ++ map Download [])
     = (([Download grid_file_url;
          Print (MsgVariables [("latitude", lat22); ("longitude", lon22)]);
          Print (MsgFinding "rain_rate/2020/04/09");
          ListBlobs "rain_rate/2020/04/09"; Print (MsgFound 1)]
         ++ map Download []) ++ [Download url_a],
        Ok st') /\
     shape (rainfall st') = (2%nat, 2%nat)) /\
  (exists t e, run world_flat notebook_config = (t, Raise e)).
Proof.
  split; [|split].
  - split; [reflexivity|].
    destruct (shape_mismatch_outcomes world_tall notebook_config lat22 lon22
                _ _ [] [] url_a
                {| values := arr 2 [[1; 2]; [3; 4]; [5; 6]];
                   units := Some "mm" |} "mm"
                eq_refl eq_refl (Forall_nil _) eq_refl eq_refl)
      as (st & _ & _ & H1 & _).
    + discriminate.
    + destruct H1 as [_ Hr]; [|exact Hr].
      left. vm_compute. repeat split; discriminate.
  - destruct (shape_mismatch_outcomes world_row notebook_config lat22 lon22
                _ _ [] [] url_a
                {| values := arr 2 [[5; 7]]; units := Some "mm" |} "mm"
                eq_refl eq_refl (Forall_nil _) eq_refl eq_refl)
      as (st & _ & _ & _ & H2 & _).
    + discriminate.
    + exists st. apply H2; [left; reflexivity|right; reflexivity].
  - destruct (shape_mismatch_outcomes world_flat notebook_config lat12 lon12
                _ _ [] [] url_a
                {| values := arr 2 [[1; 2]; [3; 4]]; units := Some "mm" |} "mm"
                eq_refl eq_refl (Forall_nil _) eq_refl eq_refl)
      as (st & _ & _ & _ & _ & H3).
    + discriminate.
    + apply H3.
      * left. reflexivity.
      * right. right. reflexivity.
      * left. split; [reflexivity|discriminate].
Defined.

(** Two samples whose shape differs from the grid's and that neither
    the decoding nor the addition refuses.  A sample of shape (1,2) on
    the (2,2) grid: the run succeeds, the row having been added to both
    rows of the aggregate.  A sample of shape (2,2) on a (1,2) grid: the
    pass over it succeeds with an aggregate of shape (2,2), the range is
    printed, and the run fails only at the shape assertions. *)
Lemma shape_mismatch_not_refused :
  (shape (values lat22) = (2%nat, 2%nat) /\
   sample_at world_row url_a
     = Some {| values := arr 2 [[5; 7]]; units := Some "mm" |} /\
   shape (arr 2 [[5; 7]]) = (1%nat, 2%nat) /\
   exists t g,
     run world_row notebook_config = (t, Ok g) /\
     g_blob_urls g = [url_a] /\
     g_rainfall_raw g = arr 2 [[5; 7]; [5; 7]]) /\
  (shape (values lat12) = (1%nat, 2%nat) /\
   sample_at world_flat url_a
     = Some {| values := arr 2 [[1; 2]; [3; 4]]; units := Some "mm" |} /\
   shape (arr 2 [[1; 2]; [3; 4]]) = (2%nat, 2%nat) /\
   (exists st',
      fold_sample world_flat (init_acc lat12) url_a []
        = ([Download url_a], Ok st') /\
      rainfall st' = arr 2 [[1; 2]; [3; 4]]) /\
   run world_flat notebook_config
   = ([Download grid_file_url;
       Print (MsgVariables [("latitude", lat12); ("longitude", lon12)]);
       Print (MsgFinding "rain_rate/2020/04/09");
       ListBlobs "rain_rate/2020/04/09"; Print (MsgFound 1);
       Download url_a;
       Print (MsgRange 1 "mm" 4);
       Print (MsgDescription
                (Some [("rain", {| values := arr 2 [[1; 2]; [3; 4]];
                                   units := Some "mm" |})]))],
      Raise AssertionError)).
Proof.
  split.
  - do 3 (split; [reflexivity|]). do 2 eexists.
    split; [vm_compute; reflexivity|]. split; reflexivity.
  - do 3 (split; [reflexivity|]). split.
    + eexists. split; [vm_compute; reflexivity|reflexivity].
    + vm_compute. reflexivity.
Qed.

End GheShapes.
